(** * rag_chatbot: document loading, vector index wrapper and query paths

    A shallow embedding of the Python sources

      - [document_processor.py]            (module [document_processor])
      - [vector_store.py]                  (module [vector_store])
      - [vector_store_completely_free.py]  (module [vector_store_completely_free])
      - [rag_chain.py]                     (module [rag_chain])
      - [app_local.py]                     (module [app_local])
      - [cli_chat.py]                      (module [cli_chat])
      - [app.py]                           (module [app])

    The program is glue around third-party libraries (langchain loaders and
    text splitter, the Chroma index, the embedding models, the RetrievalQA
    chain) and the operating system.  Those collaborators are interfaces
    here (type classes over an abstract world [W]); every call into them
    may return or raise, exactly as the [try]/[except] blocks of the
    sources anticipate.  What is proved is what the wrappers themselves do
    with those returns and raises. *)

From Stdlib Require Import ZArith String Ascii List Lia.
From stdpp Require Import base option list strings gmap pretty.

Open Scope string_scope.

(* ===================================================================== *)
(** * Python preliminaries                                                *)
(* ===================================================================== *)

Module Py.

(** An instance of Python's [Exception]: its class name and [str(e)].
    Interpreter signals outside [Exception] (KeyboardInterrupt,
    SystemExit) are not failures of a collaborator and are not
    modelled, so [except Exception] and a bare [except] both catch every
    value of this type. *)
Record exception := mkException { exc_class : string; exc_str : string }.

Definition ValueError (msg : string) : exception :=
  mkException "ValueError" msg.
(** [str(KeyError(k))] is the repr of the key. *)
Definition KeyError (key : string) : exception :=
  mkException "KeyError" ("'" +:+ key +:+ "'").
Definition TypeError (msg : string) : exception :=
  mkException "TypeError" msg.

(** [str(e)], as the f-strings of the sources use it. *)
Definition str (e : exception) : string := exc_str e.

Inductive outcome (A : Type) : Type :=
| Ret (a : A)
| Raise (e : exception).
Arguments Ret {A} a.
Arguments Raise {A} e.

(** A statement sequence over a mutable state [S]: the state reached is
    kept when an exception is raised, as assignments made before a
    [raise] stay visible in Python. *)
Definition M (S A : Type) : Type := S -> S * outcome A.

Definition ret {S A} (a : A) : M S A := fun s => (s, Ret a).
Definition raise {S A} (e : exception) : M S A := fun s => (s, Raise e).
Definition bind {S A B} (m : M S A) (k : A -> M S B) : M S B :=
  fun s => match m s with
           | (s', Ret a) => k a s'
           | (s', Raise e) => (s', Raise e)
           end.
(** [try: m  except Exception as e: h e] *)
Definition try_except {S A} (m : M S A) (h : exception -> M S A) : M S A :=
  fun s => match m s with
           | (s', Ret a) => (s', Ret a)
           | (s', Raise e) => h e s'
           end.
Definition get {S} : M S S := fun s => (s, Ret s).
Definition modify {S} (f : S -> S) : M S unit := fun s => (f s, Ret tt).
(** An expression that may raise, inside a statement sequence. *)
Definition eval {S A} (o : outcome A) : M S A := fun s => (s, o).

(** Methods of a mutable object [O]: the object travels with the rest of
    the state, so that attribute assignments survive a later raise. *)
Definition lift {O S A} (m : M S A) : M (O * S) A :=
  fun os => match m (snd os) with (s', r) => ((fst os, s'), r) end.
Definition this {O S} : M (O * S) O := fun os => (os, Ret (fst os)).
Definition assign {O S} (f : O -> O) : M (O * S) unit :=
  fun os => ((f (fst os), snd os), Ret tt).
(** Running [__init__]'s method calls on the object under construction. *)
Definition construct {O S} (o0 : O) (body : M (O * S) unit) : M S O :=
  fun s => match body (o0, s) with
           | ((o, s'), Ret _) => (s', Ret o)
           | ((_, s'), Raise e) => (s', Raise e)
           end.

(** The line feed of Python's ["\n"]. *)
Definition nl : string := String "010"%char "".

(** [s.endswith(suffix)] *)
Definition endswith (s suffix : string) : bool :=
  let n := String.length suffix in
  let m := String.length s in
  (n <=? m)%nat && String.eqb (substring (m - n) n s) suffix.

(** [sep.join(parts)] *)
Fixpoint join (sep : string) (parts : list string) : string :=
  match parts with
  | [] => ""
  | [p] => p
  | p :: rest => p +:+ sep +:+ join sep rest
  end.

(** [enumerate(l, start)] *)
Fixpoint enumerate {A} (start : Z) (l : list A) : list (Z * A) :=
  match l with
  | [] => []
  | x :: rest => (start, x) :: enumerate (start + 1) rest
  end.

End Py.
Import Py.

Declare Scope py_scope.
Delimit Scope py_scope with py.
Notation "'let*' x ':=' m 'in' k" := (bind m (fun x => k))
  (at level 10, x name, m at level 100, k at level 200) : py_scope.
Notation "m1 ';;' m2" := (bind m1 (fun _ => m2))
  (at level 100, m2 at level 200, right associativity) : py_scope.
Open Scope py_scope.

(* ===================================================================== *)
(** * Data model                                                          *)
(* ===================================================================== *)

(** [langchain.schema.Document] *)
Record Document := mkDocument {
  page_content : string;
  metadata : gmap string string
}.

#[global] Instance Document_eq_dec : EqDecision Document.
Proof. solve_decision. Defined.

(** The values the dictionaries of [rag_chain.py] hold. *)
Inductive value :=
| VNone
| VBool (b : bool)
| VStr (s : string)
| VDocs (l : list Document).

(** What a call may hand back: a plain value or a [dict]. *)
Inductive object :=
| Scalar (v : value)
| Dict (d : gmap string value).

(** [o[key]]: a missing key raises [KeyError]; subscripting a value that is
    not a dict with a string raises [TypeError]. *)
Definition getitem (o : object) (key : string) : outcome value :=
  match o with
  | Dict d =>
      match d !! key with
      | Some v => Ret v
      | None => Raise (KeyError key)
      end
  | Scalar (VStr _) => Raise (TypeError "string indices must be integers")
  | Scalar (VDocs _) => Raise (TypeError "list indices must be integers or slices, not str")
  | Scalar _ => Raise (TypeError "object is not subscriptable")
  end.

(** The embedding objects the two vector stores construct. *)
Inductive Embeddings :=
| OpenAIEmbeddings
| SentenceTransformerEmbeddings (model_name : string)
| HuggingFaceEmbeddings (model_name device : string) (normalize_embeddings : bool)
| FakeEmbeddings (size : Z).

(** The langchain loaders [document_processor.py] builds. *)
Inductive Loader :=
| PyPDFLoader (file_path : string)
| TextLoader (file_path encoding : string)
| DirectoryLoaderPDF (directory_path glob : string)
| DirectoryLoaderText (directory_path glob encoding : string).

(* ===================================================================== *)
(** * The collaborators                                                   *)
(* ===================================================================== *)

(** Every call into a library or the operating system acts on the world
    [W] and returns or raises. *)
Definition extern (W A : Type) : Type := W -> W * outcome A.

(** [os], [os.path] and [shutil]. *)
Class OS (W : Type) := {
  getenv : string -> W -> option string;
  path_exists : string -> W -> bool;
  path_isfile : string -> W -> bool;
  path_isdir : string -> W -> bool;
  listdir : string -> W -> outcome (list string);
  rmtree : string -> extern W unit
}.

(** [langchain.document_loaders] and [langchain.text_splitter]. *)
Class Langchain (W : Type) := {
  (** [RecursiveCharacterTextSplitter(chunk_size=, chunk_overlap=, length_function=len)] *)
  new_text_splitter : Z -> Z -> extern W unit;
  (** [text_splitter.split_documents(documents)] of the splitter built
      with the two sizes *)
  splitter_split_documents : Z -> Z -> list Document -> extern W (list Document);
  (** building a loader and calling its [load()] *)
  loader_load : Loader -> extern W (list Document)
}.

(** [langchain.vectorstores.Chroma] and the embedding constructors; [C] is
    the type of Chroma objects. *)
Class ChromaLib (W C : Type) := {
  new_embeddings : Embeddings -> extern W unit;
  (** [Chroma(collection_name=, embedding_function=, persist_directory=)] *)
  chroma_open : string -> Embeddings -> string -> extern W C;
  (** [Chroma.from_documents(documents=, embedding=, collection_name=, persist_directory=)] *)
  chroma_from_documents :
    list Document -> Embeddings -> string -> string -> extern W C;
  chroma_add_documents : C -> list Document -> extern W unit;
  chroma_persist : C -> extern W unit;
  chroma_similarity_search : C -> string -> Z -> extern W (list Document);
  chroma_delete_collection : C -> extern W unit;
  (** the entries a collection holds, and the one fact about search the
      development relies on: what it returns is drawn from them *)
  stored : C -> W -> list Document;
  search_sound : forall c q k w w' r,
    chroma_similarity_search c q k w = (w', Ret r) -> r ⊆ stored c w
}.

(** [langchain.chains.RetrievalQA]: calling the chain object. *)
Class Chains (W QA : Type) := {
  qa_call : QA -> string -> extern W object
}.

(** [vectorstore.as_retriever(search_kwargs=...)]; [R] is the type of
    retriever objects. *)
Class Retrievers (W C R : Type) := {
  chroma_as_retriever : C -> gmap string Z -> extern W R
}.

(** [langchain.prompts.PromptTemplate] *)
Record PromptTemplate := mkPromptTemplate {
  template : string;
  input_variables : list string
}.

(** A Python float literal, [mantissa * 10 ** exponent10]; the program
    only hands it on. *)
Record float_literal := mkFloat {
  mantissa : Z;
  exponent10 : Z
}.

(** Building the language model and the question-answering chain; [LLM]
    is the type of chat-model objects. *)
Class ChainBuilder (W R LLM QA : Type) := {
  (** [ChatOpenAI(model_name=, temperature=, openai_api_key=)] *)
  new_chat_openai : string -> float_literal -> string -> extern W LLM;
  (** [RetrievalQA.from_chain_type(llm=, chain_type=, retriever=,
      chain_type_kwargs={"prompt": prompt}, return_source_documents=)] *)
  retrieval_qa_from_chain_type :
    LLM -> string -> R -> PromptTemplate -> bool -> extern W QA
}.

(** A file handed over by [st.file_uploader]: its [name] and the bytes
    of [getbuffer()]. *)
Record UploadedFile := mkUploadedFile {
  name : string;
  buffer : string
}.

(** What the upload path of the Streamlit apps uses besides the
    libraries above: [st.error], [tempfile.TemporaryDirectory] and
    writing a file. *)
Class Uploads (W : Type) := {
  (** [st.error(message)] shows the message *)
  st_error : string -> W -> W;
  (** entering [with tempfile.TemporaryDirectory() as temp_dir] *)
  tempdir_create : extern W string;
  (** leaving that block: the directory is removed *)
  tempdir_cleanup : string -> extern W unit;
  (** [with open(path, "wb") as f: f.write(data)] *)
  write_binary : string -> string -> extern W unit
}.

(** The calls made into the collaborators, in order. *)
Inductive call :=
| NewTextSplitter (chunk_size chunk_overlap : Z)
| SplitDocuments (documents : list Document)
| Load (l : Loader)
| NewEmbeddings (e : Embeddings)
| ChromaOpen (collection_name persist_directory : string)
| ChromaFromDocuments (documents : list Document)
| ChromaAddDocuments (documents : list Document)
| ChromaPersist
| ChromaSimilaritySearch (query : string) (k : Z)
| ChromaDeleteCollection
| Rmtree (path : string)
| QACall (question : string).

(** The state a run threads: the world, what was printed, and the calls
    made so far. *)
Record State (W : Type) := mkState {
  world : W;
  stdout : list string;
  calls : list call
}.
Arguments mkState {W} world stdout calls.
Arguments world {W} s.
Arguments stdout {W} s.
Arguments calls {W} s.

Definition ext {W A} (c : call) (op : extern W A) : M (State W) A :=
  fun s => match op (world s) with
           | (w', r) => (mkState w' (stdout s) (calls s ++ [c]), r)
           end.

Definition ask {W A} (f : W -> A) : M (State W) A :=
  fun s => (s, Ret (f (world s))).

Definition print {W} (line : string) : M (State W) unit :=
  modify (fun s => mkState (world s) (stdout s ++ [line]) (calls s)).

(** A call into the chain-building part of langchain; these calls act on
    the world and are not entered in [calls]. *)
Definition invoke {W A} (op : extern W A) : M (State W) A :=
  fun s => match op (world s) with
           | (w', r) => (mkState w' (stdout s) (calls s), r)
           end.

(** Calling a method on a local object [o]. *)
Definition call_on {O S A} (o : O) (m : M (O * S) A) : M S (O * A) :=
  fun s => match m (o, s) with
           | ((o', s'), Ret a) => (s', Ret (o', a))
           | ((_, s'), Raise e) => (s', Raise e)
           end.

(* ===================================================================== *)
(** * document_processor.py                                               *)
(* ===================================================================== *)

Module document_processor.

Record DocumentProcessor := mkDocumentProcessor {
  chunk_size : Z;
  chunk_overlap : Z
  (* text_splitter: the splitter built from the two sizes above *)
}.

Section Methods.
Context {W : Type} `{OS W} `{Langchain W}.

Definition __init__ (chunk_size chunk_overlap : Z)
  : M (State W) DocumentProcessor :=
  ext (NewTextSplitter chunk_size chunk_overlap)
      (new_text_splitter chunk_size chunk_overlap) ;;
  ret (mkDocumentProcessor chunk_size chunk_overlap).

(** the defaults of the signature *)
Definition default_chunk_size : Z := 1000.
Definition default_chunk_overlap : Z := 200.

Definition load_documents (self : DocumentProcessor) (file_path : string)
  : M (State W) (list Document) :=
  let* loader :=
    if endswith file_path ".pdf" then ret (PyPDFLoader file_path)
    else if endswith file_path ".txt" then ret (TextLoader file_path "utf-8")
    else raise (ValueError ("Unsupported file type: " +:+ file_path)) in
  let* documents := ext (Load loader) (loader_load loader) in
  ret documents.

Definition load_directory (self : DocumentProcessor) (directory_path : string)
  : M (State W) (list Document) :=
  let documents : list Document := [] in
  let pdf_loader := DirectoryLoaderPDF directory_path "**/*.pdf" in
  let* pdfs := ext (Load pdf_loader) (loader_load pdf_loader) in
  let documents := (documents ++ pdfs)%list in
  let txt_loader := DirectoryLoaderText directory_path "**/*.txt" "utf-8" in
  let* txts := ext (Load txt_loader) (loader_load txt_loader) in
  let documents := (documents ++ txts)%list in
  ret documents.

Definition split_documents (self : DocumentProcessor) (documents : list Document)
  : M (State W) (list Document) :=
  let* chunks :=
    ext (SplitDocuments documents)
        (splitter_split_documents (chunk_size self) (chunk_overlap self)
                                  documents) in
  ret chunks.

Definition process_documents (self : DocumentProcessor) (source_path : string)
  : M (State W) (list Document) :=
  let* is_file := ask (path_isfile source_path) in
  let* documents :=
    if is_file then load_documents self source_path
    else
      let* is_dir := ask (path_isdir source_path) in
      if is_dir then load_directory self source_path
      else raise (ValueError ("Invalid path: " +:+ source_path)) in
  let* chunks := split_documents self documents in
  ret chunks.

End Methods.

End document_processor.

(** [os.path.join(a, b)] of [posixpath]. *)
Definition path_join (a b : string) : string :=
  if String.prefix "/" b then b
  else if String.eqb a "" || endswith a "/" then a +:+ b
  else a +:+ "/" +:+ b.

(** [for x in items: acc = body acc x], stopping at the first raise. *)
Fixpoint for_each {S A B} (body : B -> A -> M S B) (items : list A) (acc : B)
  : M S B :=
  match items with
  | [] => ret acc
  | x :: rest => bind (body acc x) (fun acc' => for_each body rest acc')
  end.

(** [with tempfile.TemporaryDirectory() as temp_dir: body temp_dir]: the
    directory is removed on the way out, also when the body raised. *)
Definition with_temporary_directory {W A} `{Uploads W}
    (body : string -> M (State W) A) : M (State W) A :=
  bind (invoke tempdir_create) (fun temp_dir =>
    fun s =>
      match body temp_dir s with
      | (s1, Ret a) =>
          bind (invoke (tempdir_cleanup temp_dir)) (fun _ => ret a) s1
      | (s1, Raise e) =>
          bind (invoke (tempdir_cleanup temp_dir)) (fun _ => raise e) s1
      end).

(** Truth value of [os.getenv(name)]: [None] and the empty string are
    false. *)
Definition truthy (v : option string) : bool :=
  match v with
  | Some s => negb (String.eqb s "")
  | None => false
  end.

(* ===================================================================== *)
(** * vector_store.py                                                     *)
(* ===================================================================== *)

Module vector_store.

Record VectorStore (C : Type) := mkVectorStore {
  collection_name : string;
  persist_directory : string;
  embeddings : Embeddings;
  vectorstore : option C
}.
Arguments mkVectorStore {C} _ _ _ _.
Arguments collection_name {C} _.
Arguments persist_directory {C} _.
Arguments embeddings {C} _.
Arguments vectorstore {C} _.

(** [self.vectorstore = v] *)
Definition set_vectorstore {C} (v : option C) (self : VectorStore C)
  : VectorStore C :=
  mkVectorStore (collection_name self) (persist_directory self)
                (embeddings self) v.

Section Methods.
Context {W C : Type} `{OS W} `{ChromaLib W C}.

(** A method runs on the object and the rest of the state. *)
Definition Self : Type := (VectorStore C * State W)%type.

Definition _load_or_create_vectorstore : M Self unit :=
  let* self := this in
  let* found := lift (ask (path_exists (persist_directory self))) in
  if found then
    try_except
      (let* c :=
         lift (ext (ChromaOpen (collection_name self) (persist_directory self))
                   (chroma_open (collection_name self) (embeddings self)
                                (persist_directory self))) in
       assign (set_vectorstore (Some c)))
      (fun _ =>
         (* If loading fails, will create new one when documents added *)
         assign (set_vectorstore None))
  else
    (* Will be created when documents are added *)
    assign (set_vectorstore None).

Definition __init__ (collection_name persist_directory embedding_model : string)
  : M (State W) (VectorStore C) :=
  let* key := ask (getenv "OPENAI_API_KEY") in
  let* embeddings :=
    if String.eqb embedding_model "openai" && truthy key then
      ext (NewEmbeddings OpenAIEmbeddings) (new_embeddings OpenAIEmbeddings) ;;
      ret OpenAIEmbeddings
    else
      let e := SentenceTransformerEmbeddings "all-MiniLM-L6-v2" in
      ext (NewEmbeddings e) (new_embeddings e) ;;
      ret e in
  construct (mkVectorStore collection_name persist_directory embeddings None)
            _load_or_create_vectorstore.

Definition add_documents (documents : list Document) : M Self unit :=
  match documents with
  | [] => raise (ValueError "No documents provided")
  | _ :: _ =>
      let* self := this in
      match vectorstore self with
      | None =>
          let* c :=
            lift (ext (ChromaFromDocuments documents)
                      (chroma_from_documents documents (embeddings self)
                         (collection_name self) (persist_directory self))) in
          assign (set_vectorstore (Some c))
      | Some c =>
          lift (ext (ChromaAddDocuments documents)
                    (chroma_add_documents c documents))
      end ;;
      (* Persist the changes *)
      let* self := this in
      match vectorstore self with
      | Some c => lift (ext ChromaPersist (chroma_persist c))
      | None =>
          raise (mkException "AttributeError"
                   "'NoneType' object has no attribute 'persist'")
      end
  end.

Definition similarity_search (query : string) (k : Z)
  : M Self (list Document) :=
  let* self := this in
  match vectorstore self with
  | None => ret []
  | Some c =>
      let* results :=
        lift (ext (ChromaSimilaritySearch query k)
                  (chroma_similarity_search c query k)) in
      ret results
  end.

Definition delete_collection : M Self unit :=
  let* self := this in
  match vectorstore self with
  | Some c =>
      lift (ext ChromaDeleteCollection (chroma_delete_collection c)) ;;
      assign (set_vectorstore None)
  | None => ret tt
  end.

Context {R : Type} `{Retrievers W C R}.

(** [search_kwargs] is [None] by default. *)
Definition get_retriever (search_kwargs : option (gmap string Z)) : M Self R :=
  let* self := this in
  match vectorstore self with
  | None => raise (ValueError "No documents in vector store. Add documents first.")
  | Some c =>
      let search_kwargs :=
        match search_kwargs with
        | None => {[ "k" := 4%Z ]}
        | Some kwargs => kwargs
        end in
      lift (invoke (chroma_as_retriever c search_kwargs))
  end.

End Methods.

End vector_store.

(* ===================================================================== *)
(** * vector_store_completely_free.py                                     *)
(* ===================================================================== *)

Module vector_store_completely_free.

Record VectorStore (C : Type) := mkVectorStore {
  collection_name : string;
  persist_directory : string;
  embeddings : Embeddings;
  vectorstore : option C
}.
Arguments mkVectorStore {C} _ _ _ _.
Arguments collection_name {C} _.
Arguments persist_directory {C} _.
Arguments embeddings {C} _.
Arguments vectorstore {C} _.

Definition set_vectorstore {C} (v : option C) (self : VectorStore C)
  : VectorStore C :=
  mkVectorStore (collection_name self) (persist_directory self)
                (embeddings self) v.

(** The model [__init__] asks for. *)
Definition free_model : Embeddings :=
  HuggingFaceEmbeddings "sentence-transformers/all-MiniLM-L6-v2" "cpu" true.

Section Methods.
Context {W C : Type} `{OS W} `{ChromaLib W C}.

Definition Self : Type := (VectorStore C * State W)%type.

Definition _load_or_create_vectorstore : M Self unit :=
  let* self := this in
  let* found := lift (ask (path_exists (persist_directory self))) in
  let* nonempty :=
    if found then
      let* names := lift (ask (listdir (persist_directory self))) in
      let* names := eval names in
      ret (negb (bool_decide (names = [])))
    else ret false in
  if nonempty then
    try_except
      (let* c :=
         lift (ext (ChromaOpen (collection_name self) (persist_directory self))
                   (chroma_open (collection_name self) (embeddings self)
                                (persist_directory self))) in
       assign (set_vectorstore (Some c)) ;;
       lift (print "📂 Loaded existing vector database"))
      (fun e =>
         lift (print ("⚠️ Could not load existing database: " +:+ str e)) ;;
         assign (set_vectorstore None))
  else
    lift (print "🏗️ Will create new vector database when documents are added") ;;
    assign (set_vectorstore None).

Definition __init__ (collection_name persist_directory : string)
  : M (State W) (VectorStore C) :=
  print "🔄 Initializing free embedding model..." ;;
  let* embeddings :=
    try_except
      (ext (NewEmbeddings free_model) (new_embeddings free_model) ;;
       print "✅ Free embedding model loaded successfully" ;;
       ret free_model)
      (fun e =>
         print ("❌ Error loading embedding model: " +:+ str e) ;;
         (* Fallback to basic embeddings *)
         let fallback := FakeEmbeddings 384 in
         print "⚠️ Using fallback embeddings" ;;
         ret fallback) in
  construct (mkVectorStore collection_name persist_directory embeddings None)
            _load_or_create_vectorstore.

Definition add_documents (documents : list Document) : M Self unit :=
  match documents with
  | [] => raise (ValueError "No documents provided")
  | _ :: _ =>
      lift (print ("🔄 Processing " +:+ pretty (length documents)
                     +:+ " document chunks with free embeddings...")) ;;
      try_except
        (let* self := this in
         match vectorstore self with
         | None =>
             lift (print "🏗️ Creating new vector database...") ;;
             let* c :=
               lift (ext (ChromaFromDocuments documents)
                         (chroma_from_documents documents (embeddings self)
                            (collection_name self) (persist_directory self))) in
             assign (set_vectorstore (Some c))
         | Some c =>
             lift (print "📝 Adding documents to existing database...") ;;
             lift (ext (ChromaAddDocuments documents)
                       (chroma_add_documents c documents))
         end ;;
         (* Persist the changes *)
         let* self := this in
         match vectorstore self with
         | Some c => lift (ext ChromaPersist (chroma_persist c))
         | None =>
             raise (mkException "AttributeError"
                      "'NoneType' object has no attribute 'persist'")
         end ;;
         lift (print "✅ Documents successfully added to vector database"))
        (fun e =>
           lift (print ("❌ Error adding documents: " +:+ str e)) ;;
           raise e)
  end.

Definition similarity_search (query : string) (k : Z)
  : M Self (list Document) :=
  let* self := this in
  match vectorstore self with
  | None =>
      lift (print "⚠️ No documents in vector store") ;;
      ret []
  | Some c =>
      try_except
        (let* results :=
           lift (ext (ChromaSimilaritySearch query k)
                     (chroma_similarity_search c query k)) in
         lift (print ("🔍 Found " +:+ pretty (length results)
                        +:+ " relevant documents")) ;;
         ret results)
        (fun e =>
           lift (print ("❌ Search error: " +:+ str e)) ;;
           ret [])
  end.

Definition delete_collection : M Self unit :=
  try_except
    (let* self := this in
     match vectorstore self with
     | Some c =>
         lift (ext ChromaDeleteCollection (chroma_delete_collection c)) ;;
         assign (set_vectorstore None)
     | None => ret tt
     end ;;
     (* Also remove the directory *)
     let* self := this in
     let* found := lift (ask (path_exists (persist_directory self))) in
     (if found then
        lift (ext (Rmtree (persist_directory self))
                  (rmtree (persist_directory self)))
      else ret tt) ;;
     lift (print "🗑️ Vector database cleared"))
    (fun e =>
       lift (print ("⚠️ Error clearing database: " +:+ str e))).

Context {R : Type} `{Retrievers W C R}.

(** [search_kwargs] is [None] by default. *)
Definition get_retriever (search_kwargs : option (gmap string Z)) : M Self R :=
  let* self := this in
  match vectorstore self with
  | None => raise (ValueError "No documents in vector store. Add documents first.")
  | Some c =>
      let search_kwargs :=
        match search_kwargs with
        | None => {[ "k" := 4%Z ]}
        | Some kwargs => kwargs
        end in
      lift (invoke (chroma_as_retriever c search_kwargs))
  end.

End Methods.

(** The value of an instance attribute. *)
Inductive attribute (C : Type) :=
| AString (s : string)
| AEmbeddings (e : Embeddings)
| AVectorstore (v : option C).
Arguments AString {C} s.
Arguments AEmbeddings {C} e.
Arguments AVectorstore {C} v.

(** [vars(self)]: the instance attributes, which are the four that
    [__init__] and the methods assign. *)
Definition vars {C} (self : VectorStore C) : gmap string (attribute C) :=
  {[ "collection_name" := AString (collection_name self);
     "persist_directory" := AString (persist_directory self);
     "embeddings" := AEmbeddings (embeddings self);
     "vectorstore" := AVectorstore (vectorstore self) ]}.

End vector_store_completely_free.

(** Truth value of a value in an [if]. *)
Definition truth (v : value) : bool :=
  match v with
  | VNone => false
  | VBool b => b
  | VStr s => negb (String.eqb s "")
  | VDocs l => negb (bool_decide (l = []))
  end.

(** [[doc.page_content for doc in v]]: a list of documents gives their
    texts; [None] and booleans cannot be iterated; the items of a string
    are strings, which have no [page_content]. *)
Definition page_contents (v : value) : outcome (list string) :=
  match v with
  | VDocs l => Ret (map page_content l)
  | VStr "" => Ret []
  | VStr _ =>
      Raise (mkException "AttributeError"
               "'str' object has no attribute 'page_content'")
  | VNone => Raise (TypeError "'NoneType' object is not iterable")
  | VBool _ => Raise (TypeError "'bool' object is not iterable")
  end.

(* ===================================================================== *)
(** * rag_chain.py                                                        *)
(* ===================================================================== *)

Module rag_chain.

(** Of the attributes [__init__] and [_setup_chain] set ([vector_store],
    [llm], [prompt_template], [qa_chain]), [query] reads [qa_chain]
    only. *)
Record RAGChain (QA : Type) := mkRAGChain {
  qa_chain : QA
}.
Arguments mkRAGChain {QA} _.
Arguments qa_chain {QA} _.

Section Methods.
Context {W QA : Type} `{Chains W QA}.

Definition query (self : RAGChain QA) (question : string)
  : M (State W) object :=
  try_except
    (let* result :=
       ext (QACall question) (qa_call (qa_chain self) question) in
     let* answer := eval (getitem result "result") in
     let* source_documents := eval (getitem result "source_documents") in
     ret (Dict {[ "answer" := answer;
                  "source_documents" := source_documents;
                  "success" := VBool true ]}))
    (fun e =>
       ret (Dict {[ "answer" := VStr ("Error processing query: " +:+ str e);
                    "source_documents" := VDocs [];
                    "success" := VBool false ]})).

Definition chat (self : RAGChain QA) (question : string)
  : M (State W) value :=
  let* result := query self question in
  eval (getitem result "answer").

Definition get_sources (self : RAGChain QA) (question : string)
  : M (State W) (list string) :=
  let* result := query self question in
  let* success := eval (getitem result "success") in
  if truth success then
    let* source_documents := eval (getitem result "source_documents") in
    eval (page_contents source_documents)
  else ret [].

End Methods.

Definition indent : string := "            ".

(** The custom prompt template of [__init__]. *)
Definition prompt_template : PromptTemplate :=
  mkPromptTemplate
    ("You are a helpful assistant that answers questions based on the provided context. " +:+ nl
     +:+ indent +:+ "Use the following pieces of context to answer the question at the end. " +:+ nl
     +:+ indent +:+ "If you don't know the answer based on the context provided, just say that you don't know, don't try to make up an answer." +:+ nl
     +:+ indent +:+ nl
     +:+ indent +:+ "Context: {context}" +:+ nl
     +:+ indent +:+ nl
     +:+ indent +:+ "Question: {question}" +:+ nl
     +:+ indent +:+ nl
     +:+ indent +:+ "Helpful Answer:")
    ["context"; "question"].

Definition default_model_name : string := "gpt-3.5-turbo".
Definition default_temperature : float_literal := mkFloat 1 (-1).

Section Construction.
Context {W C R LLM QA : Type}
        `{OS W} `{ChromaLib W C} `{Retrievers W C R} `{ChainBuilder W R LLM QA}.

(** [vector_store] is the state's object, a [VectorStore] of
    [vector_store.py]; [llm] is [self.llm]; the object returned is [self]
    with its [qa_chain] set. *)
Definition _setup_chain (llm : LLM) : M (@vector_store.Self W C) (RAGChain QA) :=
  try_except
    (let* retriever := vector_store.get_retriever None in
     (* Create the RAG chain *)
     let* qa :=
       lift (invoke (retrieval_qa_from_chain_type llm "stuff" retriever
                       prompt_template true)) in
     ret (mkRAGChain qa))
    (fun e => raise (ValueError ("Failed to setup RAG chain: " +:+ str e))).

Definition __init__ (model_name : string) (temperature : float_literal)
  : M (@vector_store.Self W C) (RAGChain QA) :=
  (* Initialize LLM *)
  let* key := lift (ask (getenv "OPENAI_API_KEY")) in
  let* llm :=
    if truthy key then
      lift (invoke (new_chat_openai model_name temperature
                      (match key with Some k => k | None => "" end)))
    else raise (ValueError "OPENAI_API_KEY not found in environment variables") in
  _setup_chain llm.

End Construction.

End rag_chain.

(** Python strings are sequences of code points; the strings here are
    their UTF-8 bytes. A byte [10xxxxxx] continues the code point begun
    before it. *)
Definition is_continuation (c : ascii) : bool :=
  match c with
  | Ascii _ _ _ _ _ _ b6 b7 => b7 && negb b6
  end.

(** [len(s)]: the number of code points, one per byte that is not a
    continuation. *)
Fixpoint py_len (s : string) : nat :=
  match s with
  | EmptyString => 0%nat
  | String c rest =>
      ((if is_continuation c then 0 else 1) + py_len rest)%nat
  end.

(** [s[:n]]: the first [n] code points, each with its continuation
    bytes. *)
Fixpoint py_take (n : nat) (s : string) : string :=
  match s with
  | EmptyString => EmptyString
  | String c rest =>
      if is_continuation c then String c (py_take n rest)
      else match n with
           | O => EmptyString
           | S n' => String c (py_take n' rest)
           end
  end.

(* ===================================================================== *)
(** * app_local.py                                                        *)
(* ===================================================================== *)

Module app_local.

Import vector_store_completely_free.

(** [f"**Source {i}:**\n{doc.page_content[:500]}{'...' if len(doc.page_content) > 500 else ''}"] *)
Definition context_part (i : Z) (doc : Document) : string :=
  "**Source " +:+ pretty i +:+ ":**" +:+ nl
    +:+ py_take 500 (page_content doc)
    +:+ (if (500 <? py_len (page_content doc))%nat then "..." else "").

Definition no_information : string :=
  "I couldn't find any relevant information in the documents to answer your question.".

Section Functions.
Context {W C : Type} `{OS W} `{ChromaLib W C}.

(** [vector_store] is the state's object; [k] defaults to 3. *)
Definition simple_rag_response (question : string) (k : Z)
  : M (@Self W C) string :=
  try_except
    ((* Get similar documents *)
     let* docs := similarity_search question k in
     match docs with
     | [] => ret no_information
     | _ :: _ =>
         (* Create a simple response with context *)
         let context_parts :=
           map (fun id => context_part (fst id) (snd id)) (enumerate 1 docs) in
         let response :=
           "Based on your documents, here's what I found:" +:+ nl +:+ nl in
         let response :=
           response +:+ join (nl +:+ nl +:+ "---" +:+ nl +:+ nl) context_parts in
         let response :=
           response +:+ nl +:+ nl
             +:+ "*Note: This is a simple context retrieval. For AI-generated answers, you need OpenAI credits.*" in
         ret response
     end)
    (fun e => ret ("Error searching documents: " +:+ str e)).

Definition default_k : Z := 3.

End Functions.

(** [st.session_state] of [app_local.py]. *)
Record SessionState (C : Type) := mkSessionState {
  messages : list (gmap string value);
  vector_store : option (VectorStore C);
  documents_processed : bool
}.
Arguments mkSessionState {C} _ _ _.
Arguments messages {C} _.
Arguments vector_store {C} _.
Arguments documents_processed {C} _.

Section Upload.
Context {W C : Type} `{OS W} `{Langchain W} `{ChromaLib W C} `{Uploads W}.

(** The body of the [for] loop: save the upload, process it, extend
    [all_chunks]. *)
Definition save_and_process (processor : document_processor.DocumentProcessor)
    (temp_dir : string) (all_chunks : list Document) (uploaded_file : UploadedFile)
  : M (State W) (list Document) :=
  (* Save uploaded file temporarily *)
  let temp_file_path := path_join temp_dir (name uploaded_file) in
  invoke (write_binary temp_file_path (buffer uploaded_file)) ;;
  (* Process document *)
  let* chunks := document_processor.process_documents processor temp_file_path in
  ret (all_chunks ++ chunks)%list.

Definition process_documents (uploaded_files : list UploadedFile)
  : M (SessionState C * State W) Z :=
  try_except
    (let* processor :=
       lift (document_processor.__init__ document_processor.default_chunk_size
                                         document_processor.default_chunk_overlap) in
     let* store := lift (__init__ (C:=C) "rag_documents" "./chroma_db") in
     let all_chunks : list Document := [] in
     (* Create temporary directory for uploaded files *)
     let* all_chunks :=
       lift (with_temporary_directory (fun temp_dir =>
               for_each (save_and_process processor temp_dir)
                        uploaded_files all_chunks)) in
     match all_chunks with
     | [] =>
         lift (modify (fun s =>
                 mkState (st_error
                            "No content could be extracted from the uploaded files."
                            (world s))
                         (stdout s) (calls s))) ;;
         ret 0%Z
     | _ :: _ =>
         (* Add documents to vector store (completely free) *)
         let* added := lift (call_on store (add_documents all_chunks)) in
         let store := fst added in
         assign (fun st => mkSessionState (messages st) (Some store)
                                          (documents_processed st)) ;;
         assign (fun st => mkSessionState (messages st) (vector_store st) true) ;;
         ret (Z.of_nat (length all_chunks))
     end)
    (fun e =>
       lift (modify (fun s =>
               mkState (st_error ("Error processing documents: " +:+ str e)
                                 (world s))
                       (stdout s) (calls s))) ;;
       ret 0%Z).

Definition reset_system : M (SessionState C * State W) unit :=
  assign (fun st => mkSessionState (messages st) None (documents_processed st)) ;;
  assign (fun st => mkSessionState (messages st) (vector_store st) false) ;;
  assign (fun st => mkSessionState [] (vector_store st) (documents_processed st)).

End Upload.

End app_local.

(* ===================================================================== *)
(** * cli_chat.py                                                         *)
(* ===================================================================== *)

Module cli_chat.

Definition placeholder_key : string := "your_openai_api_key_here".

Section Functions.
Context {W C R LLM QA : Type}
        `{OS W} `{Langchain W} `{ChromaLib W C} `{Retrievers W C R}
        `{ChainBuilder W R LLM QA}.

Definition check_api_key : M (State W) bool :=
  let* api_key := ask (getenv "OPENAI_API_KEY") in
  if negb (truthy api_key) || bool_decide (api_key = Some placeholder_key) then
    print "❌ Error: OpenAI API key not found!" ;;
    print (nl +:+ "Please:") ;;
    print "1. Copy .env.template to .env" ;;
    print "2. Add your OpenAI API key to the .env file" ;;
    print "3. Run this script again" ;;
    ret false
  else ret true.

(** Returns the chain, or [None]. *)
Definition setup_rag_system (document_path : string)
  : M (State W) (option (rag_chain.RAGChain QA)) :=
  print "🔧 Setting up RAG system..." ;;
  try_except
    ((* Process documents *)
     let* processor :=
       document_processor.__init__ document_processor.default_chunk_size
                                   document_processor.default_chunk_overlap in
     let* chunks := document_processor.process_documents processor document_path in
     print ("📄 Processed " +:+ pretty (length chunks) +:+ " document chunks") ;;
     (* Create vector store *)
     let* vector_store :=
       vector_store.__init__ (C:=C) "rag_documents" "./chroma_db" "openai" in
     let* added := call_on vector_store (vector_store.add_documents chunks) in
     let vector_store := fst added in
     print "💾 Documents added to vector store" ;;
     (* Create RAG chain *)
     let* built :=
       call_on vector_store
         (rag_chain.__init__ (R:=R) (LLM:=LLM) rag_chain.default_model_name
                             rag_chain.default_temperature) in
     let rag_chain := snd built in
     print "✅ RAG system ready!" ;;
     ret (Some rag_chain))
    (fun e =>
       print ("❌ Error setting up RAG system: " +:+ str e) ;;
       ret None).

End Functions.

End cli_chat.

(* ===================================================================== *)
(** * app.py                                                              *)
(* ===================================================================== *)

Module app.

(** [st.session_state]: the chat messages (dicts), the chain and the
    flag. *)
Record SessionState (QA : Type) := mkSessionState {
  messages : list (gmap string value);
  rag_chain : option (rag_chain.RAGChain QA);
  documents_processed : bool
}.
Arguments mkSessionState {QA} _ _ _.
Arguments messages {QA} _.
Arguments rag_chain {QA} _.
Arguments documents_processed {QA} _.

Section Functions.
Context {W C QA : Type} `{OS W} `{ChromaLib W C}.

Definition check_api_key : M (State W) bool :=
  let* api_key := ask (getenv "OPENAI_API_KEY") in
  if negb (truthy api_key)
     || bool_decide (api_key = Some "your_openai_api_key_here")
  then ret false
  else ret true.

Definition reset_system : M (SessionState QA * State W) unit :=
  assign (fun st => mkSessionState (messages st) None (documents_processed st)) ;;
  assign (fun st => mkSessionState (messages st) (rag_chain st) false) ;;
  assign (fun st => mkSessionState [] (rag_chain st) (documents_processed st)) ;;
  (* Clean up vector store *)
  try_except
    (let* vector_store :=
       lift (vector_store.__init__ (C:=C) "rag_documents" "./chroma_db" "openai") in
     let* _ := lift (call_on vector_store vector_store.delete_collection) in
     ret tt)
    (fun _ => ret tt).

End Functions.

End app.

(* ===================================================================== *)
(** * A concrete world                                                    *)
(* ===================================================================== *)

(** Stand-ins for the collaborators on which the definitions above can
    be run: an in-memory disk and index whose calls fail when the
    corresponding switch is off. *)
Module Lab.

Record Mem := mkMem {
  files : gmap string string;   (* regular files and their text *)
  dirs : list string;           (* directories *)
  index : list Document;        (* entries of the collection *)
  model_loads : bool;           (* the embedding model can be loaded *)
  search_works : bool;          (* queries reach the index *)
  delete_works : bool;          (* the collection and its files can be removed *)
  llm_answers : bool            (* the generation provider responds *)
}.

Definition set_index (l : list Document) (w : Mem) : Mem :=
  mkMem (files w) (dirs w) l (model_loads w) (search_works w)
        (delete_works w) (llm_answers w).

Definition set_dirs (d : list string) (w : Mem) : Mem :=
  mkMem (files w) d (index w) (model_loads w) (search_works w)
        (delete_works w) (llm_answers w).

Definition is_file (p : string) (w : Mem) : bool :=
  bool_decide (is_Some (files w !! p)).
Definition is_dir (p : string) (w : Mem) : bool :=
  bool_decide (p ∈ dirs w).

#[global] Instance mem_os : OS Mem := {
  getenv _ _ := None;
  path_exists p w := is_file p w || is_dir p w;
  path_isfile := is_file;
  path_isdir := is_dir;
  listdir p w :=
    if is_dir p w then
      Ret (filter (fun f => String.prefix (p +:+ "/") f = true)
                  (map fst (map_to_list (files w))))
    else Raise (mkException "NotADirectoryError" p);
  rmtree p w :=
    if delete_works w then
      (set_dirs (filter (fun d => d <> p) (dirs w)) w, Ret tt)
    else (w, Raise (mkException "PermissionError" p))
}.

Definition read (p : string) (w : Mem) : Mem * outcome (list Document) :=
  match files w !! p with
  | Some text => (w, Ret [mkDocument text {[ "source" := p ]}])
  | None => (w, Raise (mkException "RuntimeError" ("Error loading " +:+ p)))
  end.

#[global] Instance mem_langchain : Langchain Mem := {
  new_text_splitter _ _ w := (w, Ret tt);
  splitter_split_documents _ _ documents w := (w, Ret documents);
  loader_load l w :=
    match l with
    | PyPDFLoader p => read p w
    | TextLoader p _ => read p w
    | DirectoryLoaderPDF _ _ => (w, Ret [])
    | DirectoryLoaderText _ _ _ => (w, Ret [])
    end
}.

Definition search (k : Z) (w : Mem) : Mem * outcome (list Document) :=
  if search_works w then (w, Ret (take (Z.to_nat k) (index w)))
  else (w, Raise (mkException "APIConnectionError" "Connection error.")).

#[global] Instance mem_chroma : ChromaLib Mem unit.
Proof.
  refine {|
  new_embeddings _ w :=
    if model_loads w then (w, Ret tt)
    else (w, Raise (mkException "OSError" "Can't load the model"));
  chroma_open _ _ _ w := (w, Ret tt);
  chroma_from_documents documents _ _ _ w := (set_index documents w, Ret tt);
  chroma_add_documents _ documents w :=
    (set_index (index w ++ documents) w, Ret tt);
  chroma_persist _ w := (w, Ret tt);
  chroma_similarity_search _ _ k w := search k w;
  chroma_delete_collection _ w :=
    if delete_works w then (set_index [] w, Ret tt)
    else (w, Raise (mkException "PermissionError" "chroma.sqlite3"));
  stored _ w := index w;
  search_sound := _
  |}.
  intros _ _ k w w' r. unfold search.
  destruct (search_works w); intros Heq; [|discriminate].
  injection Heq as _ <-. intros x Hx.
  apply (subseteq_take (Z.to_nat k) (index w)), Hx.
Defined.

#[global] Instance mem_chains : Chains Mem unit := {
  qa_call _ question w :=
    if llm_answers w then
      (w, Ret (Dict {[ "query" := VStr question;
                       "result" := VStr "I don't know.";
                       "source_documents" := VDocs (take 4 (index w)) ]}))
    else
      (w, Raise (mkException "RateLimitError"
                   "You exceeded your current quota"))
}.

(** A chain whose response lacks the ["result"] key. *)
Definition malformed_chains : Chains Mem unit := {|
  qa_call _ question w := (w, Ret (Dict {[ "query" := VStr question ]}))
|}.

Definition start (w : Mem) : State Mem := mkState w [] [].

Definition empty_disk : Mem :=
  mkMem ∅ [] [] true true true true.

Definition note : Document :=
  mkDocument "Paris is the capital of France." {[ "source" := "notes.txt" ]}.

End Lab.

(* ===================================================================== *)
(** * Observations used in the statements                                 *)
(* ===================================================================== *)

(** The collection behind the [vectorstore] attribute holds no entry:
    there is no Chroma object, or the one there stores nothing. *)
Definition zero_entries {W C} `{ChromaLib W C} (v : option C) (w : W) : Prop :=
  match v with
  | None => True
  | Some c => stored c w = []
  end.

(** The index library's own [delete_collection] would return on the
    Chroma object behind the attribute, if there is one. *)
Definition backend_delete_returns {W C} `{ChromaLib W C}
    (v : option C) (w : W) : Prop :=
  match v with
  | None => True
  | Some c => exists w', chroma_delete_collection c w = (w', Ret tt)
  end.

(** The index library raises [e] in the course of adding [documents] to
    the store whose attributes are given: in creating the collection or
    adding to it, or in the [persist] that follows. *)
Definition index_library_raises {W C} `{ChromaLib W C}
    (v : option C) (emb : Embeddings) (collection_name persist_directory : string)
    (documents : list Document) (w : W) (e : exception) : Prop :=
  match v with
  | None =>
      (exists w',
         chroma_from_documents documents emb collection_name persist_directory w
           = (w', Raise e))
      \/ (exists w1 c w2,
            chroma_from_documents documents emb collection_name
                                  persist_directory w = (w1, Ret c)
            /\ chroma_persist c w1 = (w2, Raise e))
  | Some c =>
      (exists w', chroma_add_documents c documents w = (w', Raise e))
      \/ (exists w1 w2,
            chroma_add_documents c documents w = (w1, Ret tt)
            /\ chroma_persist c w1 = (w2, Raise e))
  end.

(** The number of characters a load extracted. *)
Definition extracted_characters (documents : list Document) : nat :=
  foldr (fun d n => (String.length (page_content d) + n)%nat) 0%nat documents.

(** The generation provider fails on [question] with [e], leaving the
    world [w']: the chain call raises, or it returns a response that the
    two subscripts of [query] cannot read. *)
Definition provider_fails {W QA} `{Chains W QA}
    (chain : QA) (question : string) (w : W) (e : exception) (w' : W) : Prop :=
  qa_call chain question w = (w', Raise e)
  \/ exists result,
       qa_call chain question w = (w', Ret result)
       /\ (getitem result "result" = Raise e
           \/ (exists v, getitem result "result" = Ret v)
              /\ getitem result "source_documents" = Raise e).

(** Concrete objects and worlds for the examples below. *)
Module Cases.
Import Lab.

Definition processor : document_processor.DocumentProcessor :=
  document_processor.mkDocumentProcessor 1000 200.

(** a disk with one empty text file *)
Definition disk_with_empty_file : Mem :=
  mkMem {[ "empty.txt" := "" ]} [] [] true true true true.

(** [./chroma_db] exists, nothing is indexed, and queries cannot reach
    the index *)
Definition unreachable_index : Mem :=
  mkMem ∅ ["./chroma_db"] [] true false true true.

(** one indexed chunk that cannot be removed *)
Definition undeletable_index : Mem :=
  mkMem ∅ ["./chroma_db"] [note] true true false true.

(** the embedding model cannot be loaded *)
Definition no_model : Mem :=
  mkMem ∅ [] [] false true true true.

(** the generation provider is down *)
Definition no_llm : Mem :=
  mkMem ∅ ["./chroma_db"] [note] true true true false.

Definition paid_opened : vector_store.VectorStore unit :=
  vector_store.mkVectorStore "rag_documents" "./chroma_db"
    (SentenceTransformerEmbeddings "all-MiniLM-L6-v2") (Some tt).

Definition paid_unopened : vector_store.VectorStore unit :=
  vector_store.mkVectorStore "rag_documents" "./chroma_db"
    (SentenceTransformerEmbeddings "all-MiniLM-L6-v2") None.

Definition free_opened : vector_store_completely_free.VectorStore unit :=
  vector_store_completely_free.mkVectorStore "rag_documents" "./chroma_db"
    vector_store_completely_free.free_model (Some tt).

Definition free_unopened : vector_store_completely_free.VectorStore unit :=
  vector_store_completely_free.mkVectorStore "rag_documents" "./chroma_db"
    vector_store_completely_free.free_model None.

Definition chain : rag_chain.RAGChain unit := rag_chain.mkRAGChain tt.

End Cases.

(** The concrete world with process environment variables, and the
    chain-building collaborators on it. *)
Module Host.
Import Lab.

Record Host := mkHost {
  environ : gmap string string;
  mem : Mem
}.

Definition on_mem {A} (op : extern Mem A) : extern Host A :=
  fun h => match op (mem h) with
           | (m, r) => (mkHost (environ h) m, r)
           end.

#[global] Instance host_os : OS Host := {
  getenv name h := environ h !! name;
  path_exists p h := path_exists p (mem h);
  path_isfile p h := path_isfile p (mem h);
  path_isdir p h := path_isdir p (mem h);
  listdir p h := listdir p (mem h);
  rmtree p := on_mem (rmtree p)
}.

#[global] Instance host_langchain : Langchain Host := {
  new_text_splitter cs co := on_mem (new_text_splitter cs co);
  splitter_split_documents cs co documents :=
    on_mem (splitter_split_documents cs co documents);
  loader_load l := on_mem (loader_load l)
}.

#[global] Instance host_chroma : ChromaLib Host unit.
Proof.
  refine {|
    new_embeddings e := on_mem (new_embeddings e);
    chroma_open cn e pd := on_mem (chroma_open cn e pd);
    chroma_from_documents documents e cn pd :=
      on_mem (chroma_from_documents documents e cn pd);
    chroma_add_documents c documents := on_mem (chroma_add_documents c documents);
    chroma_persist c := on_mem (chroma_persist c);
    chroma_similarity_search c q k := on_mem (chroma_similarity_search c q k);
    chroma_delete_collection c := on_mem (chroma_delete_collection c);
    stored c h := stored c (mem h);
    search_sound := _
  |}.
  intros c q k h h' r. unfold on_mem.
  destruct (chroma_similarity_search c q k (mem h)) as [m o] eqn:E.
  intros [= <- ->]. exact (search_sound c q k (mem h) m r E).
Defined.

#[global] Instance host_chains : Chains Host unit := {
  qa_call chain question := on_mem (qa_call chain question)
}.

(** A retriever is the [k] it was bound to. *)
#[global] Instance host_retrievers : Retrievers Host unit Z := {
  chroma_as_retriever _ search_kwargs h :=
    match search_kwargs !! "k" with
    | Some k => (h, Ret k)
    | None => (h, Ret 4%Z)
    end
}.

(** A chat model is its name; building it needs the provider. *)
#[global] Instance host_builder : ChainBuilder Host Z string unit := {
  new_chat_openai model_name _ _ h :=
    if llm_answers (mem h) then (h, Ret model_name)
    else (h, Raise (mkException "AuthenticationError" "Incorrect API key provided"));
  retrieval_qa_from_chain_type _ _ _ _ _ h := (h, Ret tt)
}.

Definition start (h : Host) : State Host := mkState h [] [].

(** a key is set; [./chroma_db] and the empty directory [documents]
    exist; [notes.txt] is a file *)
Definition configured : Host :=
  mkHost {[ "OPENAI_API_KEY" := "sk-test" ]}
         (mkMem {[ "notes.txt" := "Paris is the capital of France." ]}
                ["./chroma_db"; "documents"] [] true true true true).

(** no key is set *)
Definition unconfigured : Host :=
  mkHost ∅ (mkMem ∅ ["./chroma_db"] [note] true true true true).

(** the key is still the one of [.env.template] *)
Definition template_key : Host :=
  mkHost {[ "OPENAI_API_KEY" := "your_openai_api_key_here" ]}
         (mkMem ∅ [] [] true true true true).

(** one chunk is indexed, nothing can be deleted *)
Definition stuck : Host :=
  mkHost ∅ (mkMem ∅ ["./chroma_db"] [note] true true false true).

(** a page of a PDF manual *)
Definition manual : Document :=
  mkDocument "Press the red button." {[ "source" := "manual.pdf"; "page" := "0" ]}.

(** loaders for which every directory holds the manual and the note,
    except [locked], whose text files cannot be read *)
Definition folder_loaders : Langchain Host := {|
  new_text_splitter cs co := on_mem (new_text_splitter cs co);
  splitter_split_documents cs co documents :=
    on_mem (splitter_split_documents cs co documents);
  loader_load l h :=
    match l with
    | DirectoryLoaderPDF _ _ => (h, Ret [manual])
    | DirectoryLoaderText d _ _ =>
        if String.eqb d "locked"
        then (h, Raise (mkException "PermissionError" d))
        else (h, Ret [note])
    | _ => on_mem (loader_load l) h
    end
|}.

(** [report.docx] is a file *)
Definition with_docx : Host :=
  mkHost ∅ (mkMem {[ "report.docx" := "PK" ]} [] [] true true true true).

(** the chain answers without a list of sources *)
Definition sourceless_chains : Chains Host unit := {|
  qa_call _ question h :=
    (h, Ret (Dict {[ "result" := VStr "I don't know.";
                     "source_documents" := VNone ]}))
|}.

(** an index library that cannot create a collection when the embedding
    model is missing, and cannot persist on a disk where nothing can be
    changed *)
Definition brittle_chroma : ChromaLib Host unit.
Proof.
  refine {|
    new_embeddings e := on_mem (new_embeddings e);
    chroma_open cn e pd := on_mem (chroma_open cn e pd);
    chroma_from_documents documents e cn pd h :=
      if model_loads (mem h)
      then on_mem (chroma_from_documents documents e cn pd) h
      else (h, Raise (mkException "RuntimeError" "no embedding model"));
    chroma_add_documents c documents := on_mem (chroma_add_documents c documents);
    chroma_persist c h :=
      if delete_works (mem h) then (h, Ret tt)
      else (h, Raise (mkException "PermissionError" "chroma.sqlite3"));
    chroma_similarity_search c q k := on_mem (chroma_similarity_search c q k);
    chroma_delete_collection c := on_mem (chroma_delete_collection c);
    stored c h := stored c (mem h);
    search_sound := _
  |}.
  intros c q k h h' r. unfold on_mem.
  destruct (chroma_similarity_search c q k (mem h)) as [m o] eqn:E.
  intros [= <- ->]. exact (search_sound c q k (mem h) m r E).
Defined.

(** the embedding model cannot be loaded *)
Definition without_model : Host :=
  mkHost ∅ (mkMem ∅ [] [] false true true true).

Definition paid_fresh : vector_store.VectorStore unit * State Host :=
  (Cases.paid_unopened, start configured).
Definition free_fresh : vector_store_completely_free.VectorStore unit * State Host :=
  (Cases.free_unopened, start configured).
Definition paid_running : vector_store.VectorStore unit * State Host :=
  (Cases.paid_opened, start configured).
Definition free_running : vector_store_completely_free.VectorStore unit * State Host :=
  (Cases.free_opened, start configured).

End Host.

(* ===================================================================== *)
(** * Running the statement sequences                                     *)
(* ===================================================================== *)

Ltac unfold_py :=
  unfold bind, ret, raise, try_except, lift, this, assign, eval, construct,
         ext, ask, print, modify in *.

(** Name the result of the next collaborator call and split on it. *)
Ltac split_call :=
  match goal with
  | |- context [match ?op ?w with pair _ _ => _ end] =>
      let w' := fresh "w'" in
      let r := fresh "r" in
      let E := fresh "E" in
      destruct (op w) as [w' r] eqn:E; destruct r; simpl in *
  end.

Lemma subseteq_nil_is_nil {A} (l : list A) : l ⊆ [] -> l = [].
Proof.
  destruct l as [|x l]; [reflexivity|].
  intros Hsub. exfalso. apply (not_elem_of_nil x), Hsub. left.
Qed.

(* ===================================================================== *)
(** * document_processor.py                                               *)
(* ===================================================================== *)

Section DocumentProcessorFacts.
Context {W : Type} `{OS W} `{Langchain W}.
Import document_processor.

(** [split_documents] is the splitter's [split_documents]: one call with
    the sizes given to [__init__], handed back as it comes. *)
Lemma split_documents_is_the_splitter
    (self : DocumentProcessor) (documents : list Document) (s : State W) :
  split_documents self documents s
    = ext (SplitDocuments documents)
          (splitter_split_documents (chunk_size self) (chunk_overlap self)
                                    documents) s.
Proof.
  unfold split_documents. unfold_py. simpl. split_call; reflexivity.
Qed.

(** C10. For a [source_path] that is neither an existing file nor an
    existing directory, [process_documents] raises
    [ValueError("Invalid path: <source_path>")]; the state it leaves is
    the state it found, so no loader and no splitter was called. *)
Theorem process_documents_invalid_path
    (self : DocumentProcessor) (source_path : string) (s : State W) :
  path_isfile source_path (world s) = false ->
  path_isdir source_path (world s) = false ->
  process_documents self source_path s
    = (s, Raise (ValueError ("Invalid path: " +:+ source_path)))
  /\ calls (fst (process_documents self source_path s)) = calls s.
Proof.
  intros Hfile Hdir.
  assert (Hrun : process_documents self source_path s
                 = (s, Raise (ValueError ("Invalid path: " +:+ source_path)))).
  { unfold process_documents. unfold_py. rewrite Hfile, Hdir. reflexivity. }
  split; [exact Hrun|]. rewrite Hrun. reflexivity.
Qed.

(** C7 (as amended). [load_documents] raises
    [ValueError("Unsupported file type: <path>")], before any loader
    runs, when the path ends with neither [.pdf] nor [.txt]; for a path
    with one of the two endings it makes the one loader call and hands
    back what that call returns or raises, with no check of its own on
    the amount of text extracted. *)
Theorem load_documents_extension_gate
    (self : DocumentProcessor) (file_path : string) (s : State W) :
  (endswith file_path ".pdf" || endswith file_path ".txt" = false ->
     load_documents self file_path s
       = (s, Raise (ValueError ("Unsupported file type: " +:+ file_path))))
  /\ (endswith file_path ".pdf" || endswith file_path ".txt" = true ->
        exists l,
          (l = PyPDFLoader file_path \/ l = TextLoader file_path "utf-8")
          /\ load_documents self file_path s = ext (Load l) (loader_load l) s).
Proof.
  unfold load_documents. split; intros Hext.
  - apply orb_false_iff in Hext as [-> ->]. reflexivity.
  - destruct (endswith file_path ".pdf") eqn:Hpdf.
    + exists (PyPDFLoader file_path). split; [now left|].
      unfold_py. simpl. split_call; reflexivity.
    + simpl in Hext. rewrite Hext.
      exists (TextLoader file_path "utf-8"). split; [now right|].
      unfold_py. simpl. split_call; reflexivity.
Qed.

End DocumentProcessorFacts.

(** C10, on a disk where [nowhere] does not exist. *)
Lemma process_documents_invalid_path_witness :
  document_processor.process_documents Cases.processor "nowhere"
      (Lab.start Lab.empty_disk)
    = (Lab.start Lab.empty_disk, Raise (ValueError "Invalid path: nowhere"))
  /\ calls (fst (document_processor.process_documents Cases.processor "nowhere"
                   (Lab.start Lab.empty_disk))) = [].
Proof.
  apply (process_documents_invalid_path Cases.processor "nowhere"
           (Lab.start Lab.empty_disk)); reflexivity.
Defined.

(** C7, the claim as written fails: an empty text file has a supported
    extension and yields zero extractable characters, and loading it
    returns its one empty document instead of failing. *)
Lemma load_documents_empty_file_is_returned :
  exists documents,
    snd (document_processor.load_documents Cases.processor "empty.txt"
           (Lab.start Cases.disk_with_empty_file)) = Ret documents
    /\ extracted_characters documents = 0%nat.
Proof.
  exists [mkDocument "" {[ "source" := "empty.txt" ]}].
  split; reflexivity.
Qed.

(** C7 as amended, on the same disk: [notes.md] is refused, and
    [empty.txt] is what the text loader makes of it. *)
Lemma load_documents_extension_gate_witness :
  document_processor.load_documents Cases.processor "notes.md"
      (Lab.start Cases.disk_with_empty_file)
    = (Lab.start Cases.disk_with_empty_file,
       Raise (ValueError "Unsupported file type: notes.md"))
  /\ exists l,
       (l = PyPDFLoader "empty.txt" \/ l = TextLoader "empty.txt" "utf-8")
       /\ document_processor.load_documents Cases.processor "empty.txt"
            (Lab.start Cases.disk_with_empty_file)
          = ext (Load l) (loader_load l) (Lab.start Cases.disk_with_empty_file).
Proof.
  split.
  - apply (proj1 (load_documents_extension_gate Cases.processor "notes.md"
                    (Lab.start Cases.disk_with_empty_file))).
    reflexivity.
  - apply (proj2 (load_documents_extension_gate Cases.processor "empty.txt"
                    (Lab.start Cases.disk_with_empty_file))).
    reflexivity.
Defined.

(* ===================================================================== *)
(** * vector_store.py and vector_store_completely_free.py                 *)
(* ===================================================================== *)

Module paid := vector_store.
Module free := vector_store_completely_free.

Section VectorStoreFacts.
Context {W C : Type} `{OS W} `{ChromaLib W C}.

(** Past its guard, [add_documents] calls into the index library at
    least once, whatever that call does. *)
Lemma paid_add_documents_calls_grow (d : Document) (ds : list Document)
    (σ : @paid.Self W C) :
  (length (calls (snd σ))
     < length (calls (snd (fst (paid.add_documents (d :: ds) σ)))))%nat.
Proof.
  destruct σ as [self s]. unfold paid.add_documents. unfold_py. simpl.
  destruct (paid.vectorstore self) as [c|] eqn:Hvs; simpl.
  - split_call.
    + rewrite Hvs. split_call; rewrite !length_app; simpl; lia.
    + rewrite length_app; simpl; lia.
  - split_call.
    + split_call; rewrite !length_app; simpl; lia.
    + rewrite length_app; simpl; lia.
Qed.

Lemma free_add_documents_calls_grow (d : Document) (ds : list Document)
    (σ : @free.Self W C) :
  (length (calls (snd σ))
     < length (calls (snd (fst (free.add_documents (d :: ds) σ)))))%nat.
Proof.
  destruct σ as [self s]. unfold free.add_documents. unfold_py. simpl.
  destruct (free.vectorstore self) as [c|] eqn:Hvs; simpl.
  - split_call.
    + rewrite Hvs. split_call; rewrite !length_app; simpl; lia.
    + rewrite length_app; simpl; lia.
  - split_call.
    + split_call; rewrite !length_app; simpl; lia.
    + rewrite length_app; simpl; lia.
Qed.

(** Past its guard, an exception out of [add_documents] is one the
    index library raised in this very call. *)
Lemma paid_add_documents_raises_with_library (d : Document) (ds : list Document)
    (self : paid.VectorStore C) (s : State W) (e : exception) :
  snd (paid.add_documents (d :: ds) (self, s)) = Raise e ->
  index_library_raises (paid.vectorstore self) (paid.embeddings self)
    (paid.collection_name self) (paid.persist_directory self)
    (d :: ds) (world s) e.
Proof.
  unfold paid.add_documents, index_library_raises. unfold_py. simpl.
  destruct (paid.vectorstore self) as [c|] eqn:Hvs; simpl.
  - destruct (chroma_add_documents c (d :: ds) (world s)) as [w1 r1] eqn:Hadd.
    destruct r1 as [[]|e1]; simpl.
    + rewrite Hvs. simpl.
      destruct (chroma_persist c w1) as [w2 r2] eqn:Hpersist.
      destruct r2 as [[]|e2]; simpl; intros [= <-]. right. eauto.
    + intros [= <-]. left. eauto.
  - destruct (chroma_from_documents (d :: ds) (paid.embeddings self)
                (paid.collection_name self) (paid.persist_directory self)
                (world s)) as [w1 r1] eqn:Hcreate.
    destruct r1 as [c|e1]; simpl.
    + destruct (chroma_persist c w1) as [w2 r2] eqn:Hpersist.
      destruct r2 as [[]|e2]; simpl; intros [= <-]. right. eauto.
    + intros [= <-]. left. eauto.
Qed.

Lemma free_add_documents_raises_with_library (d : Document) (ds : list Document)
    (self : free.VectorStore C) (s : State W) (e : exception) :
  snd (free.add_documents (d :: ds) (self, s)) = Raise e ->
  index_library_raises (free.vectorstore self) (free.embeddings self)
    (free.collection_name self) (free.persist_directory self)
    (d :: ds) (world s) e.
Proof.
  unfold free.add_documents, index_library_raises. unfold_py. simpl.
  destruct (free.vectorstore self) as [c|] eqn:Hvs; simpl.
  - destruct (chroma_add_documents c (d :: ds) (world s)) as [w1 r1] eqn:Hadd.
    destruct r1 as [[]|e1]; simpl.
    + rewrite Hvs. simpl.
      destruct (chroma_persist c w1) as [w2 r2] eqn:Hpersist.
      destruct r2 as [[]|e2]; simpl; intros [= <-]. right. eauto.
    + intros [= <-]. left. eauto.
  - destruct (chroma_from_documents (d :: ds) (free.embeddings self)
                (free.collection_name self) (free.persist_directory self)
                (world s)) as [w1 r1] eqn:Hcreate.
    destruct r1 as [c|e1]; simpl.
    + destruct (chroma_persist c w1) as [w2 r2] eqn:Hpersist.
      destruct r2 as [[]|e2]; simpl; intros [= <-]. right. eauto.
    + intros [= <-]. left. eauto.
Qed.

(** C3. In both vector stores [add_documents] fails on its emptiness
    guard, raising [ValueError("No documents provided")] before anything
    else happens, if and only if the sequence given is empty; and for a
    sequence that is not empty it raises nothing of its own: an exception
    out of it, whatever its class and text, is one the index library
    raised in this call (creating the collection or adding to it, or
    persisting). *)
Theorem add_documents_empty_input_iff
    (documents : list Document) (σp : @paid.Self W C) (σf : @free.Self W C) :
  ((paid.add_documents documents σp
      = (σp, Raise (ValueError "No documents provided")) <-> documents = [])
   /\ (documents <> [] ->
       forall e, snd (paid.add_documents documents σp) = Raise e ->
         index_library_raises (paid.vectorstore (fst σp))
           (paid.embeddings (fst σp)) (paid.collection_name (fst σp))
           (paid.persist_directory (fst σp)) documents (world (snd σp)) e))
  /\ ((free.add_documents documents σf
         = (σf, Raise (ValueError "No documents provided")) <-> documents = [])
      /\ (documents <> [] ->
          forall e, snd (free.add_documents documents σf) = Raise e ->
            index_library_raises (free.vectorstore (fst σf))
              (free.embeddings (fst σf)) (free.collection_name (fst σf))
              (free.persist_directory (fst σf)) documents (world (snd σf)) e)).
Proof.
  split; split.
  - split; [|intros ->; reflexivity].
    destruct documents as [|d ds]; [reflexivity|]. intros Hrun.
    pose proof (paid_add_documents_calls_grow d ds σp) as Hgrow.
    rewrite Hrun in Hgrow. simpl in Hgrow. lia.
  - destruct documents as [|d ds]; [contradiction|]. intros _ e.
    destruct σp as [self s]. apply paid_add_documents_raises_with_library.
  - split; [|intros ->; reflexivity].
    destruct documents as [|d ds]; [reflexivity|]. intros Hrun.
    pose proof (free_add_documents_calls_grow d ds σf) as Hgrow.
    rewrite Hrun in Hgrow. simpl in Hgrow. lia.
  - destruct documents as [|d ds]; [contradiction|]. intros _ e.
    destruct σf as [self s]. apply free_add_documents_raises_with_library.
Qed.

(** With no Chroma object behind the attribute, search answers the empty
    list and touches nothing in [vector_store.py]. *)
Lemma paid_search_unopened (self : paid.VectorStore C) (s : State W)
    (query : string) (k : Z) :
  paid.vectorstore self = None ->
  paid.similarity_search query k (self, s) = ((self, s), Ret []).
Proof.
  intros Hvs. unfold paid.similarity_search. unfold_py. simpl.
  rewrite Hvs. reflexivity.
Qed.

Lemma free_search_unopened (self : free.VectorStore C) (s : State W)
    (query : string) (k : Z) :
  free.vectorstore self = None ->
  free.similarity_search query k (self, s)
    = ((self, mkState (world s)
                (stdout s ++ ["⚠️ No documents in vector store"]) (calls s)),
       Ret []).
Proof.
  intros Hvs. unfold free.similarity_search. unfold_py. simpl.
  rewrite Hvs. reflexivity.
Qed.

(** C9. In the free vector store, when the index raises [e] during the
    search, [similarity_search] catches it, prints the error and returns
    the empty list; the store object is left as it was. *)
Theorem free_similarity_search_absorbs_index_failure
    (self : free.VectorStore C) (s : State W) (query : string) (k : Z)
    (c : C) (e : exception) (w' : W) :
  free.vectorstore self = Some c ->
  chroma_similarity_search c query k (world s) = (w', Raise e) ->
  free.similarity_search query k (self, s)
    = ((self, mkState w' (stdout s ++ ["❌ Search error: " +:+ str e])
                (calls s ++ [ChromaSimilaritySearch query k])),
       Ret []).
Proof.
  intros Hvs Hraise. unfold free.similarity_search. unfold_py. simpl.
  rewrite Hvs. simpl. rewrite Hraise. reflexivity.
Qed.

(** The free [similarity_search] returns on every state. *)
Lemma free_similarity_search_total (σ : @free.Self W C) (query : string) (k : Z) :
  exists documents, snd (free.similarity_search query k σ) = Ret documents.
Proof.
  destruct σ as [self s]. unfold free.similarity_search. unfold_py. simpl.
  destruct (free.vectorstore self) as [c|]; simpl; [|eauto].
  split_call; eauto.
Qed.


End VectorStoreFacts.

Section DeleteAndInitFacts.
Context {W C : Type} `{OS W} `{ChromaLib W C}.

(** The free [delete_collection] returns on every state: whatever the
    index library or [shutil.rmtree] raises is printed and dropped. *)
Lemma free_delete_collection_total (σ : @free.Self W C) :
  snd (free.delete_collection σ) = Ret tt.
Proof.
  destruct σ as [self s]. unfold free.delete_collection. unfold_py. simpl.
  destruct (free.vectorstore self) as [c|]; simpl.
  - split_call; [|reflexivity].
    destruct (path_exists _ _); simpl; [|reflexivity].
    split_call; reflexivity.
  - destruct (path_exists _ _); simpl; [|reflexivity].
    split_call; reflexivity.
Qed.

(** Without a Chroma object the free [delete_collection] leaves the
    attribute as it is. *)
Lemma free_delete_collection_unopened (self : free.VectorStore C) (s : State W) :
  free.vectorstore self = None ->
  fst (fst (free.delete_collection (self, s))) = self.
Proof.
  intros Hvs. unfold free.delete_collection. unfold_py. simpl.
  rewrite Hvs. simpl.
  destruct (path_exists _ _); simpl; [|reflexivity].
  split_call; reflexivity.
Qed.

(** Without a Chroma object [delete_collection] of [vector_store.py]
    does nothing. *)
Lemma paid_delete_collection_unopened (self : paid.VectorStore C) (s : State W) :
  paid.vectorstore self = None ->
  paid.delete_collection (self, s) = ((self, s), Ret tt).
Proof.
  intros Hvs. unfold paid.delete_collection. unfold_py. simpl.
  rewrite Hvs. reflexivity.
Qed.

(** C5 (as amended). If the index library's own deletion does not fail
    on the open Chroma object (in particular if there is none, the
    collection being already deleted), [delete_collection] returns and
    leaves no Chroma object behind; from there every search returns the
    empty list without raising, and a further [delete_collection]
    returns as well and changes nothing of that. *)
Theorem delete_collection_then_search
    (selfp : paid.VectorStore C) (selff : free.VectorStore C) (s : State W) :
  backend_delete_returns (paid.vectorstore selfp) (world s) ->
  backend_delete_returns (free.vectorstore selff) (world s) ->
  (exists σ1,
     paid.delete_collection (selfp, s) = (σ1, Ret tt)
     /\ paid.vectorstore (fst σ1) = None
     /\ (forall query k, paid.similarity_search query k σ1 = (σ1, Ret []))
     /\ paid.delete_collection σ1 = (σ1, Ret tt))
  /\ (exists σ1,
        free.delete_collection (selff, s) = (σ1, Ret tt)
        /\ free.vectorstore (fst σ1) = None
        /\ (forall query k,
              snd (free.similarity_search query k σ1) = Ret []
              /\ fst (fst (free.similarity_search query k σ1)) = fst σ1)
        /\ snd (free.delete_collection σ1) = Ret tt
        /\ fst (fst (free.delete_collection σ1)) = fst σ1).
Proof.
  intros Hp Hf. split.
  - assert (Hafter : exists σ1,
               paid.delete_collection (selfp, s) = (σ1, Ret tt)
               /\ paid.vectorstore (fst σ1) = None).
    { destruct (paid.vectorstore selfp) as [c|] eqn:Hvs.
      - unfold paid.delete_collection. unfold_py. simpl. rewrite Hvs. simpl.
        destruct Hp as [w' Hdel]. rewrite Hdel. simpl. eauto.
      - rewrite paid_delete_collection_unopened by exact Hvs. eauto. }
    destruct Hafter as [[self1 s1] [Hrun Hnone]]. simpl in Hnone.
    exists (self1, s1). split; [exact Hrun|]. split; [exact Hnone|]. split.
    + intros query k. now apply paid_search_unopened.
    + now apply paid_delete_collection_unopened.
  - assert (Hafter : exists σ1,
               free.delete_collection (selff, s) = (σ1, Ret tt)
               /\ free.vectorstore (fst σ1) = None).
    { unfold free.delete_collection. unfold_py. simpl.
      destruct (free.vectorstore selff) as [c|] eqn:Hvs; simpl.
      - destruct Hf as [w' Hdel]. rewrite Hdel. simpl.
        destruct (path_exists _ _); simpl; [|eauto].
        split_call; eauto.
      - destruct (path_exists _ _); simpl; [|eauto].
        split_call; eauto. }
    destruct Hafter as [[self1 s1] [Hrun Hnone]]. simpl in Hnone.
    exists (self1, s1). split; [exact Hrun|]. split; [exact Hnone|].
    split; [|split].
    + intros query k. now rewrite free_search_unopened.
    + apply free_delete_collection_total.
    + now apply free_delete_collection_unopened.
Qed.

(** Opening the store prints, and leaves the attributes other than
    [vectorstore] and the lines printed before alone. *)
Lemma free_load_or_create_keeps (σ σ' : @free.Self W C) (r : outcome unit) :
  free._load_or_create_vectorstore σ = (σ', r) ->
  (free.collection_name (fst σ') = free.collection_name (fst σ)
   /\ free.persist_directory (fst σ') = free.persist_directory (fst σ)
   /\ free.embeddings (fst σ') = free.embeddings (fst σ))
  /\ exists lines, stdout (snd σ') = (stdout (snd σ) ++ lines)%list.
Proof.
  destruct σ as [self s]. unfold free._load_or_create_vectorstore.
  unfold_py. simpl.
  destruct (path_exists _ _); simpl.
  - destruct (listdir _ _) as [names|e]; simpl.
    + destruct (bool_decide (names = [])); simpl.
      * intros [= <- <-]. simpl. eauto 6.
      * split_call; intros [= <- <-]; simpl; eauto 6.
    + intros [= <- <-]. simpl. split; [auto|].
      exists []. now rewrite app_nil_r.
  - intros [= <- <-]. simpl. eauto 6.
Qed.


End DeleteAndInitFacts.

(* ===================================================================== *)
(** * rag_chain.py                                                        *)
(* ===================================================================== *)

Section RAGChainFacts.
Context {W QA : Type} `{Chains W QA}.
Import rag_chain.

(** [query] returns a dict on every state; no exception leaves it. *)
Lemma query_total (self : RAGChain QA) (question : string) (s : State W) :
  exists s' d, query self question s = (s', Ret (Dict d)).
Proof.
  unfold query. unfold_py. simpl. split_call; [|eauto].
  destruct (getitem a "result"); simpl; [|eauto].
  destruct (getitem a "source_documents"); simpl; eauto.
Qed.

(** C2. When the generation provider fails on the question with [e],
    [query] returns a dict whose ["success"] is [False], whose ["answer"]
    is the non-empty text ["Error processing query: " + str(e)] and whose
    ["source_documents"] is the empty list; it does not raise. *)
Theorem query_provider_failure_is_structured
    (self : RAGChain QA) (question : string) (s : State W)
    (e : exception) (w' : W) :
  provider_fails (qa_chain self) question (world s) e w' ->
  exists d,
    query self question s
      = (mkState w' (stdout s) (calls s ++ [QACall question]), Ret (Dict d))
    /\ d !! "success" = Some (VBool false)
    /\ d !! "answer" = Some (VStr ("Error processing query: " +:+ str e))
    /\ "Error processing query: " +:+ str e <> ""
    /\ d !! "source_documents" = Some (VDocs []).
Proof.
  intros Hfail.
  exists {[ "answer" := VStr ("Error processing query: " +:+ str e);
            "source_documents" := VDocs [];
            "success" := VBool false ]}.
  split; [|repeat split; discriminate || reflexivity].
  unfold query. unfold_py. simpl.
  destruct Hfail as [Hcall | (result & Hcall & Hread)]; rewrite Hcall; simpl.
  - reflexivity.
  - destruct Hread as [Hres | [[v Hres] Hsrc]]; rewrite Hres; simpl.
    + reflexivity.
    + rewrite Hsrc. reflexivity.
Qed.

End RAGChainFacts.

(* ===================================================================== *)
(** * app_local.py                                                        *)
(* ===================================================================== *)

Section AppLocalFacts.
Context {W C : Type} `{OS W} `{ChromaLib W C}.
Import app_local.

(** C6 (as amended). When the search finds no chunk,
    [simple_rag_response] returns, as a plain string, the sentence saying
    that no relevant information was found; that string is not the
    ["Error searching documents: ..."] text of the error path. *)
Theorem simple_rag_response_no_documents
    (σ : @free.Self W C) (question : string) (k : Z) :
  snd (free.similarity_search question k σ) = Ret [] ->
  simple_rag_response question k σ
    = (fst (free.similarity_search question k σ), Ret no_information)
  /\ String.prefix "Error searching documents: " no_information = false.
Proof.
  intros Hnone. split; [|reflexivity].
  unfold simple_rag_response. unfold_py.
  destruct (free.similarity_search question k σ) as [σ' r].
  simpl in Hnone. subst r. reflexivity.
Qed.

End AppLocalFacts.

(* ===================================================================== *)
(** * The statements on the concrete world                                *)
(* ===================================================================== *)

(** C9, with an index that cannot be reached. *)
Lemma free_similarity_search_absorbs_index_failure_witness :
  free.similarity_search "anything" 4
      (Cases.free_opened, Lab.start Cases.unreachable_index)
    = ((Cases.free_opened,
        mkState Cases.unreachable_index
          ["❌ Search error: Connection error."]
          [ChromaSimilaritySearch "anything" 4]),
       Ret []).
Proof.
  apply (free_similarity_search_absorbs_index_failure Cases.free_opened
           (Lab.start Cases.unreachable_index) "anything" 4 tt
           (mkException "APIConnectionError" "Connection error.")
           Cases.unreachable_index); reflexivity.
Defined.



(** C5, the claim as written fails: the free [delete_collection]
    returns although the index library could not delete, the Chroma
    object stays, and the next search still finds the chunk. *)
Lemma free_search_after_failed_delete_finds_chunk :
  free.delete_collection (Cases.free_opened, Lab.start Cases.undeletable_index)
    = ((Cases.free_opened,
        mkState Cases.undeletable_index
          ["⚠️ Error clearing database: chroma.sqlite3"]
          [ChromaDeleteCollection]),
       Ret tt)
  /\ snd (free.similarity_search "anything" 4
            (fst (free.delete_collection
                    (Cases.free_opened, Lab.start Cases.undeletable_index))))
     = Ret [Lab.note].
Proof. split; reflexivity. Qed.

(** C5 as amended, on a disk where deletion works. *)
Lemma delete_collection_then_search_witness :
  (exists σ1,
     paid.delete_collection (Cases.paid_opened, Lab.start Cases.no_llm)
       = (σ1, Ret tt)
     /\ paid.vectorstore (fst σ1) = None
     /\ (forall query k, paid.similarity_search query k σ1 = (σ1, Ret []))
     /\ paid.delete_collection σ1 = (σ1, Ret tt))
  /\ (exists σ1,
        free.delete_collection (Cases.free_opened, Lab.start Cases.no_llm)
          = (σ1, Ret tt)
        /\ free.vectorstore (fst σ1) = None
        /\ (forall query k,
              snd (free.similarity_search query k σ1) = Ret []
              /\ fst (fst (free.similarity_search query k σ1)) = fst σ1)
        /\ snd (free.delete_collection σ1) = Ret tt
        /\ fst (fst (free.delete_collection σ1)) = fst σ1).
Proof.
  apply (delete_collection_then_search Cases.paid_opened Cases.free_opened
           (Lab.start Cases.no_llm)); exists (Lab.set_index [] Cases.no_llm);
    reflexivity.
Defined.



(** C2, with the generation provider down. *)
Lemma query_provider_failure_is_structured_witness :
  exists d,
    rag_chain.query Cases.chain "What is the capital of France?"
        (Lab.start Cases.no_llm)
      = (mkState Cases.no_llm []
           [QACall "What is the capital of France?"],
         Ret (Dict d))
    /\ d !! "success" = Some (VBool false)
    /\ d !! "answer"
       = Some (VStr "Error processing query: You exceeded your current quota")
    /\ "Error processing query: You exceeded your current quota" <> ""
    /\ d !! "source_documents" = Some (VDocs []).
Proof.
  apply (query_provider_failure_is_structured Cases.chain
           "What is the capital of France?" (Lab.start Cases.no_llm)
           (mkException "RateLimitError" "You exceeded your current quota")
           Cases.no_llm).
  left. reflexivity.
Defined.

(** C6, the claim as written fails: on a store with nothing indexed the
    value returned is the bare string, and a string has neither a
    ["success"] nor a ["source_chunks"] entry to read. *)
Lemma simple_rag_response_is_a_bare_string :
  snd (app_local.simple_rag_response "anything" app_local.default_k
         (Cases.free_unopened, Lab.start Lab.empty_disk))
    = Ret app_local.no_information
  /\ getitem (Scalar (VStr app_local.no_information)) "success"
     = Raise (TypeError "string indices must be integers")
  /\ getitem (Scalar (VStr app_local.no_information)) "source_chunks"
     = Raise (TypeError "string indices must be integers").
Proof. repeat split; reflexivity. Qed.

(** C6 as amended, on that same store. *)
Lemma simple_rag_response_no_documents_witness :
  app_local.simple_rag_response "anything" app_local.default_k
      (Cases.free_unopened, Lab.start Lab.empty_disk)
    = (fst (free.similarity_search "anything" app_local.default_k
              (Cases.free_unopened, Lab.start Lab.empty_disk)),
       Ret app_local.no_information)
  /\ String.prefix "Error searching documents: " app_local.no_information
     = false.
Proof.
  apply (simple_rag_response_no_documents
           (Cases.free_unopened, Lab.start Lab.empty_disk) "anything"
           app_local.default_k).
  reflexivity.
Defined.

(* ===================================================================== *)
(** * Further properties: strings                                         *)
(* ===================================================================== *)

Lemma length_append (a b : string) :
  String.length (a +:+ b) = (String.length a + String.length b)%nat.
Proof. induction a as [|c a IH]; simpl; [reflexivity|now rewrite IH]. Qed.

Lemma substring_whole (s : string) : substring 0 (String.length s) s = s.
Proof. induction s as [|c s IH]; simpl; [reflexivity|now rewrite IH]. Qed.

Lemma substring_past_prefix (a b : string) (n : nat) :
  substring (String.length a) n (a +:+ b) = substring 0 n b.
Proof. induction a as [|c a IH]; simpl; [reflexivity|exact IH]. Qed.

Lemma substring_split (s : string) (k : nat) :
  (k <= String.length s)%nat ->
  s = substring 0 k s +:+ substring k (String.length s - k) s.
Proof.
  revert k. induction s as [|c s IH]; intros k Hk; simpl in *.
  - destruct k; [reflexivity|lia].
  - destruct k as [|k]; simpl.
    + now rewrite substring_whole.
    + change (String c s
              = String c (substring 0 k s
                          +:+ substring k (String.length s - k) s)).
      f_equal. apply IH. lia.
Qed.

Lemma length_substring_start (s : string) (n : nat) :
  String.length (substring 0 n s) = Nat.min n (String.length s).
Proof.
  revert n. induction s as [|c s IH]; intros [|n]; simpl; try reflexivity.
  now rewrite IH.
Qed.

Lemma substring_short (s : string) (n : nat) :
  (String.length s <= n)%nat -> substring 0 n s = s.
Proof.
  revert n. induction s as [|c s IH]; intros [|n] Hn; simpl in *;
    try reflexivity; try lia.
  f_equal. apply IH. lia.
Qed.

Lemma prefix_append (a b : string) : String.prefix a (a +:+ b) = true.
Proof.
  induction a as [|c a IH]; simpl; [now destruct b|].
  destruct (Ascii.ascii_dec c c); [exact IH|contradiction].
Qed.

(** [endswith] is Python's: the string is something followed by the
    suffix. *)
Lemma endswith_spec (s suffix : string) :
  endswith s suffix = true <-> exists stem, s = stem +:+ suffix.
Proof.
  unfold endswith. split.
  - intros Hend. apply andb_true_iff in Hend as [Hle Heq].
    apply Nat.leb_le in Hle. apply String.eqb_eq in Heq.
    exists (substring 0 (String.length s - String.length suffix) s).
    pose proof (substring_split s (String.length s - String.length suffix))
      as Hsplit.
    replace (String.length s - (String.length s - String.length suffix))%nat
      with (String.length suffix) in Hsplit by lia.
    rewrite Heq in Hsplit. apply Hsplit. lia.
  - intros [stem ->]. rewrite length_append. apply andb_true_iff. split.
    + apply Nat.leb_le. lia.
    + apply String.eqb_eq.
      replace (String.length stem + String.length suffix
               - String.length suffix)%nat
        with (String.length stem) by lia.
      rewrite substring_past_prefix. apply substring_whole.
Qed.

(* ===================================================================== *)
(** * Further properties: document_processor.py                           *)
(* ===================================================================== *)

Section DocumentProcessorMore.
Context {W : Type} `{OS W} `{Langchain W}.
Import document_processor.

(** Past the extension gate the loader is called, whatever it does. *)
Lemma load_documents_supported_calls_loader
    (self : DocumentProcessor) (file_path : string) (s : State W) :
  endswith file_path ".pdf" || endswith file_path ".txt" = true ->
  (length (calls s)
     < length (calls (fst (load_documents self file_path s))))%nat.
Proof.
  intros Hext. unfold load_documents. unfold_py.
  destruct (endswith file_path ".pdf"); simpl in *.
  - split_call; rewrite length_app; simpl; lia.
  - rewrite Hext. simpl. split_call; rewrite length_app; simpl; lia.
Qed.

End DocumentProcessorMore.

Section DocumentProcessorEdges.
Context {W : Type} `{OS W} `{Langchain W}.
Import document_processor.

(** X1. [load_documents] stops at its extension gate, raising
    [ValueError("Unsupported file type: <path>")] with nothing else done,
    exactly for the paths that are not some text followed by [.pdf] or by
    [.txt]. *)
Theorem load_documents_refused_iff
    (self : DocumentProcessor) (file_path : string) (s : State W) :
  load_documents self file_path s
    = (s, Raise (ValueError ("Unsupported file type: " +:+ file_path)))
  <-> ~ exists stem,
          file_path = stem +:+ ".pdf" \/ file_path = stem +:+ ".txt".
Proof.
  split.
  - intros Hrun (stem & Hstem).
    assert (Hext : endswith file_path ".pdf" || endswith file_path ".txt" = true).
    { apply orb_true_iff.
      destruct Hstem as [-> | ->]; [left | right];
        apply endswith_spec; eauto. }
    pose proof (load_documents_supported_calls_loader self file_path s Hext)
      as Hgrow.
    rewrite Hrun in Hgrow. simpl in Hgrow. lia.
  - intros Hnone. unfold load_documents. unfold_py.
    destruct (endswith file_path ".pdf") eqn:Hpdf.
    { exfalso. apply Hnone. apply endswith_spec in Hpdf as [stem ->]. eauto. }
    destruct (endswith file_path ".txt") eqn:Htxt.
    { exfalso. apply Hnone. apply endswith_spec in Htxt as [stem ->]. eauto. }
    reflexivity.
Qed.

(** X2. When both directory loads return, [load_directory] returns the
    PDF documents followed by the text documents, having called the PDF
    loader and then the text loader, each once. *)
Theorem load_directory_pdfs_then_texts
    (self : DocumentProcessor) (directory_path : string) (s : State W)
    (w1 w2 : W) (pdfs txts : list Document) :
  loader_load (DirectoryLoaderPDF directory_path "**/*.pdf") (world s)
    = (w1, Ret pdfs) ->
  loader_load (DirectoryLoaderText directory_path "**/*.txt" "utf-8") w1
    = (w2, Ret txts) ->
  load_directory self directory_path s
    = (mkState w2 (stdout s)
         (calls s ++ [Load (DirectoryLoaderPDF directory_path "**/*.pdf");
                      Load (DirectoryLoaderText directory_path "**/*.txt" "utf-8")]),
       Ret (pdfs ++ txts)%list).
Proof.
  intros Hpdf Htxt. unfold load_directory. unfold_py. simpl.
  rewrite Hpdf. simpl. rewrite Htxt. simpl.
  now rewrite <- app_assoc.
Qed.

(** X3. When the PDF load raises, [load_directory] raises the same
    exception and the text loader is not called; when the text load raises
    after the PDFs were read, it raises that exception and the PDFs read
    are not returned. *)
Theorem load_directory_failure_returns_nothing
    (self : DocumentProcessor) (directory_path : string) (s : State W)
    (e : exception) :
  (exists w1,
     loader_load (DirectoryLoaderPDF directory_path "**/*.pdf") (world s)
       = (w1, Raise e))
  \/ (exists w1 pdfs w2,
        loader_load (DirectoryLoaderPDF directory_path "**/*.pdf") (world s)
          = (w1, Ret pdfs)
        /\ loader_load (DirectoryLoaderText directory_path "**/*.txt" "utf-8") w1
           = (w2, Raise e)) ->
  snd (load_directory self directory_path s) = Raise e
  /\ ((exists w1,
         loader_load (DirectoryLoaderPDF directory_path "**/*.pdf") (world s)
           = (w1, Raise e)) ->
      calls (fst (load_directory self directory_path s))
        = (calls s ++ [Load (DirectoryLoaderPDF directory_path "**/*.pdf")])%list).
Proof.
  intros Hfail. unfold load_directory. unfold_py. simpl.
  destruct Hfail as [[w1 Hpdf] | (w1 & pdfs & w2 & Hpdf & Htxt)];
    rewrite Hpdf; simpl.
  - split; [reflexivity|]. intros _. reflexivity.
  - rewrite Htxt. simpl. split; [reflexivity|].
    intros [w1' Habs]. discriminate.
Qed.

(** X4. An existing file whose name ends with neither [.pdf] nor [.txt]
    makes [process_documents] raise
    [ValueError("Unsupported file type: <path>")]; no loader and no
    splitter is called. *)
Theorem process_documents_unsupported_file
    (self : DocumentProcessor) (source_path : string) (s : State W) :
  path_isfile source_path (world s) = true ->
  endswith source_path ".pdf" = false ->
  endswith source_path ".txt" = false ->
  process_documents self source_path s
    = (s, Raise (ValueError ("Unsupported file type: " +:+ source_path))).
Proof.
  intros Hfile Hpdf Htxt. unfold process_documents, load_documents.
  unfold_py. rewrite Hfile, Hpdf, Htxt. reflexivity.
Qed.

End DocumentProcessorEdges.

(** X2, on a directory holding one PDF page and one text file. *)
Lemma load_directory_pdfs_then_texts_witness :
  @document_processor.load_directory _ Host.folder_loaders
      Cases.processor "documents" (Host.start Host.configured)
    = (mkState Host.configured []
         [Load (DirectoryLoaderPDF "documents" "**/*.pdf");
          Load (DirectoryLoaderText "documents" "**/*.txt" "utf-8")],
       Ret [Host.manual; Lab.note]).
Proof.
  apply (@load_directory_pdfs_then_texts _ Host.folder_loaders
           Cases.processor "documents" (Host.start Host.configured)
           Host.configured Host.configured [Host.manual] [Lab.note]);
    reflexivity.
Defined.

(** X3, on a directory whose text files cannot be read. *)
Lemma load_directory_failure_returns_nothing_witness :
  snd (@document_processor.load_directory _ Host.folder_loaders
         Cases.processor "locked" (Host.start Host.configured))
    = Raise (mkException "PermissionError" "locked").
Proof.
  apply (@load_directory_failure_returns_nothing _ Host.folder_loaders
           Cases.processor "locked" (Host.start Host.configured)
           (mkException "PermissionError" "locked")).
  right. exists Host.configured, [Host.manual], Host.configured.
  split; reflexivity.
Defined.

(** X4, on a disk where [report.docx] exists. *)
Lemma process_documents_unsupported_file_witness :
  document_processor.process_documents Cases.processor "report.docx"
      (Host.start Host.with_docx)
    = (Host.start Host.with_docx,
       Raise (ValueError "Unsupported file type: report.docx")).
Proof.
  apply (process_documents_unsupported_file Cases.processor "report.docx"
           (Host.start Host.with_docx)); reflexivity.
Defined.

(* ===================================================================== *)
(** * Further properties: the two vector stores                           *)
(* ===================================================================== *)

Section VectorStoreMore.
Context {W C R : Type} `{OS W} `{ChromaLib W C} `{Retrievers W C R}.

(** After an [add_documents] that returned there is a Chroma object. *)
Lemma paid_add_documents_opens (documents : list Document)
    (σ σ1 : @paid.Self W C) :
  paid.add_documents documents σ = (σ1, Ret tt) ->
  exists c, paid.vectorstore (fst σ1) = Some c.
Proof.
  destruct σ as [self s]. unfold paid.add_documents. unfold_py.
  destruct documents as [|d ds]; [discriminate|]. simpl.
  destruct (paid.vectorstore self) as [c|] eqn:Hvs; simpl.
  - split_call; [|discriminate]. rewrite Hvs.
    split_call; intros [= <-]; simpl; eauto.
  - split_call; [|discriminate].
    split_call; intros [= <-]; simpl; eauto.
Qed.

Lemma free_add_documents_opens (documents : list Document)
    (σ σ1 : @free.Self W C) :
  free.add_documents documents σ = (σ1, Ret tt) ->
  exists c, free.vectorstore (fst σ1) = Some c.
Proof.
  destruct σ as [self s]. unfold free.add_documents. unfold_py.
  destruct documents as [|d ds]; [discriminate|]. simpl.
  destruct (free.vectorstore self) as [c|] eqn:Hvs; simpl.
  - split_call; [|discriminate]. rewrite Hvs.
    split_call; intros [= <-]; simpl; eauto.
  - split_call; [|discriminate].
    split_call; intros [= <-]; simpl; eauto.
Qed.

(** X5. After an [add_documents] that returned, in either store,
    [get_retriever()] does not refuse: it is the index library's
    [as_retriever] on the store's Chroma object with
    [search_kwargs={"k": 4}]. *)
Theorem get_retriever_after_add_documents
    (documents : list Document)
    (σp σp1 : @paid.Self W C) (σf σf1 : @free.Self W C) :
  paid.add_documents documents σp = (σp1, Ret tt) ->
  free.add_documents documents σf = (σf1, Ret tt) ->
  (exists c,
     paid.vectorstore (fst σp1) = Some c
     /\ paid.get_retriever None σp1
        = lift (invoke (chroma_as_retriever c {[ "k" := 4%Z ]})) σp1)
  /\ (exists c,
        free.vectorstore (fst σf1) = Some c
        /\ free.get_retriever None σf1
           = lift (invoke (chroma_as_retriever c {[ "k" := 4%Z ]})) σf1).
Proof.
  intros Hp Hf.
  apply paid_add_documents_opens in Hp as [cp Hcp].
  apply free_add_documents_opens in Hf as [cf Hcf].
  split; [exists cp | exists cf]; (split; [assumption|]).
  - unfold paid.get_retriever. unfold_py. simpl. now rewrite Hcp.
  - unfold free.get_retriever. unfold_py. simpl. now rewrite Hcf.
Qed.

(** X6. After a [delete_collection] of [vector_store.py] that returned,
    [get_retriever] raises
    [ValueError("No documents in vector store. Add documents first.")]
    and changes nothing. *)
Theorem get_retriever_after_delete_collection
    (σ σ1 : @paid.Self W C) (search_kwargs : option (gmap string Z)) :
  paid.delete_collection σ = (σ1, Ret tt) ->
  paid.get_retriever (R:=R) search_kwargs σ1
    = (σ1, Raise (ValueError "No documents in vector store. Add documents first.")).
Proof.
  destruct σ as [self s]. unfold paid.delete_collection. unfold_py. simpl.
  destruct (paid.vectorstore self) as [c|] eqn:Hvs; simpl.
  - split_call; intros [= <-]. reflexivity.
  - intros [= <-]. unfold paid.get_retriever. unfold_py. simpl.
    now rewrite Hvs.
Qed.

(** X7. On a store without a Chroma object, when the index library
    cannot create the collection, [add_documents] raises the library's
    exception in both stores and the store still has no Chroma object;
    the free store has printed three lines on the way. *)
Theorem add_documents_failed_creation
    (d : Document) (ds : list Document)
    (selfp : paid.VectorStore C) (selff : free.VectorStore C)
    (s : State W) (ep ef : exception) (wp wf : W) :
  paid.vectorstore selfp = None ->
  free.vectorstore selff = None ->
  chroma_from_documents (d :: ds) (paid.embeddings selfp)
    (paid.collection_name selfp) (paid.persist_directory selfp) (world s)
    = (wp, Raise ep) ->
  chroma_from_documents (d :: ds) (free.embeddings selff)
    (free.collection_name selff) (free.persist_directory selff) (world s)
    = (wf, Raise ef) ->
  paid.add_documents (d :: ds) (selfp, s)
    = ((selfp, mkState wp (stdout s)
                 (calls s ++ [ChromaFromDocuments (d :: ds)])),
       Raise ep)
  /\ free.add_documents (d :: ds) (selff, s)
     = ((selff,
         mkState wf
           (stdout s
            ++ ["🔄 Processing " +:+ pretty (length (d :: ds))
                  +:+ " document chunks with free embeddings...";
                "🏗️ Creating new vector database...";
                "❌ Error adding documents: " +:+ str ef])
           (calls s ++ [ChromaFromDocuments (d :: ds)])),
        Raise ef).
Proof.
  intros Hp Hf Hraisep Hraisef. split.
  - unfold paid.add_documents. unfold_py. simpl.
    rewrite Hp. simpl. rewrite Hraisep. reflexivity.
  - unfold free.add_documents. unfold_py. simpl.
    rewrite Hf. simpl. rewrite Hraisef.
    simpl. now rewrite <- !app_assoc.
Qed.

(** X8. When the collection was created but persisting it raises,
    [add_documents] raises that exception in both stores, yet the store is
    left holding the new Chroma object. *)
Theorem add_documents_failed_persist_leaves_store_open
    (d : Document) (ds : list Document)
    (selfp : paid.VectorStore C) (selff : free.VectorStore C)
    (s : State W) (cp cf : C) (ep ef : exception) (wp1 wp2 wf1 wf2 : W) :
  paid.vectorstore selfp = None ->
  free.vectorstore selff = None ->
  chroma_from_documents (d :: ds) (paid.embeddings selfp)
    (paid.collection_name selfp) (paid.persist_directory selfp) (world s)
    = (wp1, Ret cp) ->
  chroma_persist cp wp1 = (wp2, Raise ep) ->
  chroma_from_documents (d :: ds) (free.embeddings selff)
    (free.collection_name selff) (free.persist_directory selff) (world s)
    = (wf1, Ret cf) ->
  chroma_persist cf wf1 = (wf2, Raise ef) ->
  (snd (paid.add_documents (d :: ds) (selfp, s)) = Raise ep
   /\ paid.vectorstore (fst (fst (paid.add_documents (d :: ds) (selfp, s))))
      = Some cp)
  /\ (snd (free.add_documents (d :: ds) (selff, s)) = Raise ef
      /\ free.vectorstore (fst (fst (free.add_documents (d :: ds) (selff, s))))
         = Some cf).
Proof.
  intros Hp Hf Hcreatep Hpersistp Hcreatef Hpersistf. split.
  - unfold paid.add_documents. unfold_py. simpl.
    rewrite Hp. simpl. rewrite Hcreatep. simpl. rewrite Hpersistp.
    split; reflexivity.
  - unfold free.add_documents. unfold_py. simpl.
    rewrite Hf. simpl. rewrite Hcreatef.
    simpl. rewrite Hpersistf. split; reflexivity.
Qed.

(** X9. On a store that has a Chroma object, [add_documents] never
    replaces it: whatever happens the store object is the same afterwards,
    and the only calls made are [add_documents] on that object and
    [persist]. *)
Theorem add_documents_on_open_store_keeps_object
    (documents : list Document)
    (selfp : paid.VectorStore C) (selff : free.VectorStore C)
    (s : State W) (cp cf : C) :
  paid.vectorstore selfp = Some cp ->
  free.vectorstore selff = Some cf ->
  (fst (fst (paid.add_documents documents (selfp, s))) = selfp
   /\ exists made,
        calls (snd (fst (paid.add_documents documents (selfp, s))))
          = (calls s ++ made)%list
        /\ forall x, x ∈ made ->
             x = ChromaAddDocuments documents \/ x = ChromaPersist)
  /\ (fst (fst (free.add_documents documents (selff, s))) = selff
      /\ exists made,
           calls (snd (fst (free.add_documents documents (selff, s))))
             = (calls s ++ made)%list
           /\ forall x, x ∈ made ->
                x = ChromaAddDocuments documents \/ x = ChromaPersist).
Proof.
  intros Hp Hf.
  assert (Hnil : forall x : call, x ∈ @nil call ->
            x = ChromaAddDocuments documents \/ x = ChromaPersist).
  { intros x Hx. now apply not_elem_of_nil in Hx. }
  assert (Hone : forall x : call, x ∈ [ChromaAddDocuments documents] ->
            x = ChromaAddDocuments documents \/ x = ChromaPersist).
  { intros x Hx. apply list_elem_of_singleton in Hx. now left. }
  assert (Htwo : forall x : call,
            x ∈ [ChromaAddDocuments documents; ChromaPersist] ->
            x = ChromaAddDocuments documents \/ x = ChromaPersist).
  { intros x Hx. apply elem_of_cons in Hx as [->|Hx]; [now left|].
    apply list_elem_of_singleton in Hx. now right. }
  split.
  - unfold paid.add_documents. unfold_py.
    destruct documents as [|d ds]; simpl.
    { split; [reflexivity|]. exists []. now rewrite app_nil_r. }
    rewrite Hp. simpl. split_call.
    + rewrite Hp. split_call; (split; [reflexivity|]);
        eexists; (split; [now rewrite <- app_assoc|exact Htwo]).
    + split; [reflexivity|]. eexists. split; [reflexivity|exact Hone].
  - unfold free.add_documents. unfold_py.
    destruct documents as [|d ds]; simpl.
    { split; [reflexivity|]. exists []. now rewrite app_nil_r. }
    rewrite Hf. simpl. split_call.
    + rewrite Hf. split_call; (split; [reflexivity|]);
        eexists; (split; [now rewrite <- app_assoc|exact Htwo]).
    + split; [reflexivity|]. eexists. split; [reflexivity|exact Hone].
Qed.

End VectorStoreMore.

Ltac units := repeat match goal with u : unit |- _ => destruct u end.

Section VectorStoreSiblings.
Context {W C : Type} `{OS W} `{ChromaLib W C}.

(** X10. Started on the same open Chroma object, in the same world and
    after the same calls, [add_documents] of the free store and of
    [vector_store.py] end alike: same return or exception, same world,
    same calls to the index library. The one of [vector_store.py] prints
    nothing. *)
Theorem free_add_documents_agrees_with_paid
    (documents : list Document)
    (selfp : paid.VectorStore C) (selff : free.VectorStore C)
    (sp sf : State W) (c : C) :
  paid.vectorstore selfp = Some c ->
  free.vectorstore selff = Some c ->
  world sp = world sf ->
  calls sp = calls sf ->
  snd (paid.add_documents documents (selfp, sp))
    = snd (free.add_documents documents (selff, sf))
  /\ world (snd (fst (paid.add_documents documents (selfp, sp))))
     = world (snd (fst (free.add_documents documents (selff, sf))))
  /\ calls (snd (fst (paid.add_documents documents (selfp, sp))))
     = calls (snd (fst (free.add_documents documents (selff, sf))))
  /\ stdout (snd (fst (paid.add_documents documents (selfp, sp)))) = stdout sp.
Proof.
  destruct selfp as [cn pd emb vs], selff as [cn' pd' emb' vs'].
  destruct sp as [w outp callsp], sf as [w' outf callsf].
  intros Hp Hf Hw Hc. simpl in *. subst.
  unfold paid.add_documents, free.add_documents. unfold_py.
  destruct documents as [|d ds]; simpl; [repeat split|].
  split_call; [|repeat split].
  split_call; units; repeat split.
Qed.

(** X11. Started on the same Chroma object (or both without one), in
    the same world and after the same calls, the two [similarity_search]
    leave their store as it was and make the same call; where the one of
    [vector_store.py] returns documents the free one returns the same
    documents, and where it raises the free one returns the empty list. *)
Theorem free_similarity_search_agrees_with_paid
    (query : string) (k : Z)
    (selfp : paid.VectorStore C) (selff : free.VectorStore C)
    (sp sf : State W) :
  paid.vectorstore selfp = free.vectorstore selff ->
  world sp = world sf ->
  calls sp = calls sf ->
  fst (fst (paid.similarity_search query k (selfp, sp))) = selfp
  /\ fst (fst (free.similarity_search query k (selff, sf))) = selff
  /\ world (snd (fst (paid.similarity_search query k (selfp, sp))))
     = world (snd (fst (free.similarity_search query k (selff, sf))))
  /\ calls (snd (fst (paid.similarity_search query k (selfp, sp))))
     = calls (snd (fst (free.similarity_search query k (selff, sf))))
  /\ match snd (paid.similarity_search query k (selfp, sp)) with
     | Ret documents =>
         snd (free.similarity_search query k (selff, sf)) = Ret documents
     | Raise _ =>
         snd (free.similarity_search query k (selff, sf)) = Ret []
     end.
Proof.
  destruct selfp as [cn pd emb vs], selff as [cn' pd' emb' vs'].
  destruct sp as [w outp callsp], sf as [w' outf callsf].
  intros Hvs Hw Hc. simpl in *. subst.
  unfold paid.similarity_search, free.similarity_search. unfold_py. simpl.
  destruct vs' as [c|]; simpl; [|repeat split].
  split_call; repeat split.
Qed.

(** Opening the store in [vector_store.py] never raises. *)
Lemma paid_load_or_create_total (σ : @paid.Self W C) :
  snd (paid._load_or_create_vectorstore σ) = Ret tt.
Proof.
  destruct σ as [self s]. unfold paid._load_or_create_vectorstore.
  unfold_py. simpl.
  destruct (path_exists _ _); simpl; [|reflexivity].
  split_call; reflexivity.
Qed.

(** X12. [__init__] of [vector_store.py] can only fail on its embedding
    model: an exception out of it is the one raised by the constructor of
    [OpenAIEmbeddings] or of the [all-MiniLM-L6-v2] sentence transformer;
    a persist directory that cannot be opened never makes it fail. *)
Theorem paid_init_fails_only_on_embeddings
    (collection_name persist_directory embedding_model : string)
    (s s' : State W) (x : exception) :
  paid.__init__ (C:=C) collection_name persist_directory embedding_model s
    = (s', Raise x) ->
  exists e w',
    new_embeddings e (world s) = (w', Raise x)
    /\ (e = OpenAIEmbeddings
        \/ e = SentenceTransformerEmbeddings "all-MiniLM-L6-v2").
Proof.
  unfold paid.__init__. unfold_py. simpl.
  destruct (String.eqb embedding_model "openai"
            && truthy (getenv "OPENAI_API_KEY" (world s))); simpl.
  - destruct (new_embeddings OpenAIEmbeddings (world s)) as [w1 r] eqn:E.
    destruct r as [[]|e]; simpl.
    + match goal with
      | |- context [paid._load_or_create_vectorstore ?σ] =>
          pose proof (paid_load_or_create_total σ) as Htot;
          destruct (paid._load_or_create_vectorstore σ) as [[self1 s1] r1]
      end.
      simpl in Htot. subst r1. discriminate.
    + intros [= <- <-]. eauto.
  - destruct (new_embeddings (SentenceTransformerEmbeddings "all-MiniLM-L6-v2")
                (world s)) as [w1 r] eqn:E.
    destruct r as [[]|e]; simpl.
    + match goal with
      | |- context [paid._load_or_create_vectorstore ?σ] =>
          pose proof (paid_load_or_create_total σ) as Htot;
          destruct (paid._load_or_create_vectorstore σ) as [[self1 s1] r1]
      end.
      simpl in Htot. subst r1. discriminate.
    + intros [= <- <-]. eauto.
Qed.

(** X13. The free [__init__] can only fail on listing the persist
    directory: an exception out of it is the one [os.listdir] raised on a
    persist directory that exists; neither a model that does not load nor
    a collection that does not open makes it fail. *)
Theorem free_init_fails_only_on_listdir
    (collection_name persist_directory : string)
    (s s' : State W) (x : exception) :
  free.__init__ (C:=C) collection_name persist_directory s = (s', Raise x) ->
  path_exists persist_directory
    (fst (new_embeddings free.free_model (world s))) = true
  /\ listdir persist_directory
       (fst (new_embeddings free.free_model (world s))) = Raise x.
Proof.
  unfold free.__init__, free._load_or_create_vectorstore. unfold_py. simpl.
  destruct (new_embeddings free.free_model (world s)) as [w1 r] eqn:E.
  destruct r as [[]|e]; simpl.
  - destruct (path_exists persist_directory w1); simpl; [|discriminate].
    destruct (listdir persist_directory w1) as [names|e']; simpl.
    + destruct (bool_decide (names = [])); simpl; [discriminate|].
      split_call; discriminate.
    + intros [= <- <-]. auto.
  - destruct (path_exists persist_directory w1); simpl; [|discriminate].
    destruct (listdir persist_directory w1) as [names|e']; simpl.
    + destruct (bool_decide (names = [])); simpl; [discriminate|].
      split_call; discriminate.
    + intros [= <- <-]. auto.
Qed.

(** X14. On a persist directory that exists and is empty the two stores
    part: [vector_store.py] opens a Chroma object on it, the free store
    calls nothing and waits for the first documents. *)
Theorem empty_directory_free_defers_paid_opens
    (selfp : paid.VectorStore C) (selff : free.VectorStore C)
    (s : State W) (c : C) (w' : W) :
  path_exists (paid.persist_directory selfp) (world s) = true ->
  path_exists (free.persist_directory selff) (world s) = true ->
  listdir (free.persist_directory selff) (world s) = Ret [] ->
  chroma_open (paid.collection_name selfp) (paid.embeddings selfp)
    (paid.persist_directory selfp) (world s) = (w', Ret c) ->
  paid._load_or_create_vectorstore (selfp, s)
    = ((paid.set_vectorstore (Some c) selfp,
        mkState w' (stdout s)
          (calls s ++ [ChromaOpen (paid.collection_name selfp)
                                  (paid.persist_directory selfp)])),
       Ret tt)
  /\ free._load_or_create_vectorstore (selff, s)
     = ((free.set_vectorstore None selff,
         mkState (world s)
           (stdout s
            ++ ["🏗️ Will create new vector database when documents are added"])
           (calls s)),
        Ret tt).
Proof.
  intros Hexistsp Hexistsf Hlist Hopen. split.
  - unfold paid._load_or_create_vectorstore. unfold_py. simpl.
    rewrite Hexistsp. simpl. rewrite Hopen. reflexivity.
  - unfold free._load_or_create_vectorstore. unfold_py. simpl.
    rewrite Hexistsf. simpl. rewrite Hlist. reflexivity.
Qed.

(** X15. The free [delete_collection] calls [shutil.rmtree] on the
    persist directory exactly when the collection deletion did not fail
    (or there was no Chroma object) and the directory then exists. *)
Theorem free_delete_collection_removes_directory_iff
    (self : free.VectorStore C) (s : State W) :
  exists made,
    calls (snd (fst (free.delete_collection (self, s)))) = (calls s ++ made)%list
    /\ (Rmtree (free.persist_directory self) ∈ made
        <-> match free.vectorstore self with
            | None => path_exists (free.persist_directory self) (world s) = true
            | Some c =>
                exists w',
                  chroma_delete_collection c (world s) = (w', Ret tt)
                  /\ path_exists (free.persist_directory self) w' = true
            end).
Proof.
  unfold free.delete_collection. unfold_py. simpl.
  destruct (free.vectorstore self) as [c|]; simpl.
  - destruct (chroma_delete_collection c (world s)) as [w1 r] eqn:Hdel.
    destruct r as [[]|e]; simpl.
    + destruct (path_exists (free.persist_directory self) w1) eqn:Hex; simpl.
      * exists [ChromaDeleteCollection; Rmtree (free.persist_directory self)].
        split; [split_call; now rewrite <- app_assoc|].
        split; [eauto|]. intros _. right. left.
      * exists [ChromaDeleteCollection]. split; [reflexivity|].
        split.
        { intros Hin. apply list_elem_of_singleton in Hin. discriminate. }
        intros (w' & [= <-] & Habs). congruence.
    + exists [ChromaDeleteCollection]. split; [reflexivity|].
      split.
      { intros Hin. apply list_elem_of_singleton in Hin. discriminate. }
      intros (w' & Habs & _). discriminate.
  - destruct (path_exists (free.persist_directory self) (world s)) eqn:Hex;
      simpl.
    + exists [Rmtree (free.persist_directory self)].
      split; [split_call; reflexivity|]. split; [auto|]. intros _. left.
    + exists []. split; [now rewrite app_nil_r|].
      split; [|discriminate].
      intros Hin. now apply not_elem_of_nil in Hin.
Qed.

End VectorStoreSiblings.

(** X5, after adding one chunk to fresh stores. *)
Lemma get_retriever_after_add_documents_witness :
  snd (paid.get_retriever (R:=Z) None
         (fst (paid.add_documents [Lab.note] Host.paid_fresh))) = Ret 4%Z
  /\ snd (free.get_retriever (R:=Z) None
            (fst (free.add_documents [Lab.note] Host.free_fresh))) = Ret 4%Z.
Proof.
  assert (Hp : paid.add_documents [Lab.note] Host.paid_fresh
               = (fst (paid.add_documents [Lab.note] Host.paid_fresh), Ret tt))
    by reflexivity.
  assert (Hf : free.add_documents [Lab.note] Host.free_fresh
               = (fst (free.add_documents [Lab.note] Host.free_fresh), Ret tt))
    by reflexivity.
  destruct (get_retriever_after_add_documents (R:=Z) _ _ _ _ _ Hp Hf)
    as [(cp & _ & Hrp) (cf & _ & Hrf)].
  rewrite Hrp, Hrf. split; reflexivity.
Defined.

(** X6, after deleting the collection of a running store. *)
Lemma get_retriever_after_delete_collection_witness :
  snd (paid.get_retriever (R:=Z) None
         (fst (paid.delete_collection Host.paid_running)))
    = Raise (ValueError "No documents in vector store. Add documents first.").
Proof.
  assert (Hdel : paid.delete_collection Host.paid_running
                 = (fst (paid.delete_collection Host.paid_running), Ret tt))
    by reflexivity.
  rewrite (get_retriever_after_delete_collection (R:=Z) _ _ None Hdel).
  reflexivity.
Defined.

(** X7, without an embedding model. *)
Lemma add_documents_failed_creation_witness :
  snd (@paid.add_documents _ _ Host.brittle_chroma [Lab.note]
         (Cases.paid_unopened, Host.start Host.without_model))
    = Raise (mkException "RuntimeError" "no embedding model")
  /\ free.vectorstore
       (fst (fst (@free.add_documents _ _ Host.brittle_chroma [Lab.note]
                    (Cases.free_unopened, Host.start Host.without_model))))
     = None.
Proof.
  assert (Hp : @chroma_from_documents _ _ Host.brittle_chroma [Lab.note]
                 (paid.embeddings Cases.paid_unopened)
                 (paid.collection_name Cases.paid_unopened)
                 (paid.persist_directory Cases.paid_unopened)
                 (world (Host.start Host.without_model))
               = (Host.without_model,
                  Raise (mkException "RuntimeError" "no embedding model")))
    by reflexivity.
  assert (Hf : @chroma_from_documents _ _ Host.brittle_chroma [Lab.note]
                 (free.embeddings Cases.free_unopened)
                 (free.collection_name Cases.free_unopened)
                 (free.persist_directory Cases.free_unopened)
                 (world (Host.start Host.without_model))
               = (Host.without_model,
                  Raise (mkException "RuntimeError" "no embedding model")))
    by reflexivity.
  destruct (@add_documents_failed_creation _ _ Host.brittle_chroma
              Lab.note [] Cases.paid_unopened Cases.free_unopened
              (Host.start Host.without_model) _ _ _ _
              (eq_refl : paid.vectorstore Cases.paid_unopened = None)
              (eq_refl : free.vectorstore Cases.free_unopened = None)
              Hp Hf) as [Hrp Hrf].
  rewrite Hrp, Hrf. split; reflexivity.
Defined.

(** X8, on a disk where nothing can be written. *)
Lemma add_documents_failed_persist_leaves_store_open_witness :
  (snd (@paid.add_documents _ _ Host.brittle_chroma [Lab.note]
          (Cases.paid_unopened, Host.start Host.stuck))
     = Raise (mkException "PermissionError" "chroma.sqlite3")
   /\ paid.vectorstore
        (fst (fst (@paid.add_documents _ _ Host.brittle_chroma [Lab.note]
                     (Cases.paid_unopened, Host.start Host.stuck))))
      = Some tt)
  /\ (snd (@free.add_documents _ _ Host.brittle_chroma [Lab.note]
             (Cases.free_unopened, Host.start Host.stuck))
        = Raise (mkException "PermissionError" "chroma.sqlite3")
      /\ free.vectorstore
           (fst (fst (@free.add_documents _ _ Host.brittle_chroma [Lab.note]
                        (Cases.free_unopened, Host.start Host.stuck))))
         = Some tt).
Proof.
  apply (@add_documents_failed_persist_leaves_store_open _ _ Host.brittle_chroma
           Lab.note [] Cases.paid_unopened Cases.free_unopened
           (Host.start Host.stuck) tt tt
           (mkException "PermissionError" "chroma.sqlite3")
           (mkException "PermissionError" "chroma.sqlite3")
           (Host.mkHost ∅ (Lab.set_index [Lab.note] (Host.mem Host.stuck)))
           (Host.mkHost ∅ (Lab.set_index [Lab.note] (Host.mem Host.stuck)))
           (Host.mkHost ∅ (Lab.set_index [Lab.note] (Host.mem Host.stuck)))
           (Host.mkHost ∅ (Lab.set_index [Lab.note] (Host.mem Host.stuck))));
    reflexivity.
Defined.

(** X9, adding to running stores. *)
Lemma add_documents_on_open_store_keeps_object_witness :
  fst (fst (paid.add_documents [Lab.note] Host.paid_running)) = Cases.paid_opened
  /\ fst (fst (free.add_documents [Lab.note] Host.free_running))
     = Cases.free_opened.
Proof.
  destruct (add_documents_on_open_store_keeps_object [Lab.note]
              Cases.paid_opened Cases.free_opened
              (Host.start Host.configured) tt tt
              (eq_refl : paid.vectorstore Cases.paid_opened = Some tt)
              (eq_refl : free.vectorstore Cases.free_opened = Some tt))
    as [[Hp _] [Hf _]].
  split; [exact Hp | exact Hf].
Defined.

(** X10, adding to running stores. *)
Lemma free_add_documents_agrees_with_paid_witness :
  snd (paid.add_documents [Lab.note] Host.paid_running)
    = snd (free.add_documents [Lab.note] Host.free_running)
  /\ calls (snd (fst (paid.add_documents [Lab.note] Host.paid_running)))
     = calls (snd (fst (free.add_documents [Lab.note] Host.free_running))).
Proof.
  destruct (free_add_documents_agrees_with_paid [Lab.note]
              Cases.paid_opened Cases.free_opened
              (Host.start Host.configured) (Host.start Host.configured) tt
              (eq_refl : paid.vectorstore Cases.paid_opened = Some tt)
              (eq_refl : free.vectorstore Cases.free_opened = Some tt)
              eq_refl eq_refl)
    as (Hout & _ & Hcalls & _).
  split; [exact Hout | exact Hcalls].
Defined.

(** X11, searching running stores. *)
Lemma free_similarity_search_agrees_with_paid_witness :
  fst (fst (paid.similarity_search "anything" 4 Host.paid_running))
    = Cases.paid_opened
  /\ fst (fst (free.similarity_search "anything" 4 Host.free_running))
     = Cases.free_opened.
Proof.
  destruct (free_similarity_search_agrees_with_paid "anything" 4
              Cases.paid_opened Cases.free_opened
              (Host.start Host.configured) (Host.start Host.configured)
              (eq_refl : paid.vectorstore Cases.paid_opened
                         = free.vectorstore Cases.free_opened)
              eq_refl eq_refl)
    as (Hp & Hf & _).
  split; [exact Hp | exact Hf].
Defined.

(** X12, without an embedding model. *)
Lemma paid_init_fails_only_on_embeddings_witness :
  exists e w',
    new_embeddings e Host.without_model
      = (w', Raise (mkException "OSError" "Can't load the model"))
    /\ (e = OpenAIEmbeddings
        \/ e = SentenceTransformerEmbeddings "all-MiniLM-L6-v2").
Proof.
  assert (Hinit : paid.__init__ (C:=unit) "rag_documents" "./chroma_db" "openai"
                    (Host.start Host.without_model)
                  = (mkState Host.without_model []
                       [NewEmbeddings
                          (SentenceTransformerEmbeddings "all-MiniLM-L6-v2")],
                     Raise (mkException "OSError" "Can't load the model")))
    by reflexivity.
  exact (paid_init_fails_only_on_embeddings (C:=unit) _ _ _ _ _ _ Hinit).
Defined.

(** X13, with a regular file given as persist directory. *)
Lemma free_init_fails_only_on_listdir_witness :
  path_exists "notes.txt"
    (fst (new_embeddings free.free_model Host.configured)) = true
  /\ listdir "notes.txt"
       (fst (new_embeddings free.free_model Host.configured))
     = Raise (mkException "NotADirectoryError" "notes.txt").
Proof.
  assert (Hinit : free.__init__ (C:=unit) "rag_documents" "notes.txt"
                    (Host.start Host.configured)
                  = (fst (free.__init__ (C:=unit) "rag_documents" "notes.txt"
                            (Host.start Host.configured)),
                     Raise (mkException "NotADirectoryError" "notes.txt")))
    by reflexivity.
  exact (free_init_fails_only_on_listdir (C:=unit) _ _ _ _ _ Hinit).
Defined.

(** X14, with [./chroma_db] present and empty. *)
Lemma empty_directory_free_defers_paid_opens_witness :
  paid.vectorstore
    (fst (fst (paid._load_or_create_vectorstore Host.paid_fresh))) = Some tt
  /\ free.vectorstore
       (fst (fst (free._load_or_create_vectorstore Host.free_fresh))) = None.
Proof.
  assert (Hep : path_exists (paid.persist_directory Cases.paid_unopened)
                  (world (Host.start Host.configured)) = true) by reflexivity.
  assert (Hef : path_exists (free.persist_directory Cases.free_unopened)
                  (world (Host.start Host.configured)) = true) by reflexivity.
  assert (Hls : listdir (free.persist_directory Cases.free_unopened)
                  (world (Host.start Host.configured)) = Ret []) by reflexivity.
  assert (Hop : chroma_open (paid.collection_name Cases.paid_unopened)
                  (paid.embeddings Cases.paid_unopened)
                  (paid.persist_directory Cases.paid_unopened)
                  (world (Host.start Host.configured))
                = (Host.configured, Ret tt)) by reflexivity.
  destruct (empty_directory_free_defers_paid_opens
              Cases.paid_unopened Cases.free_unopened
              (Host.start Host.configured) tt Host.configured
              Hep Hef Hls Hop) as [Hp Hf].
  unfold Host.paid_fresh, Host.free_fresh. rewrite Hp, Hf.
  split; reflexivity.
Defined.

Ltac unfold_all := unfold_py; unfold invoke, call_on in *.

(* ===================================================================== *)
(** * Further properties: rag_chain.py                                    *)
(* ===================================================================== *)

Section RAGChainConstruction.
Context {W C R LLM QA : Type}
        `{OS W} `{ChromaLib W C} `{Retrievers W C R} `{ChainBuilder W R LLM QA}.

(** X16. With a key set and the chat model built, [RAGChain(vector_store)]
    on a store that has no Chroma object raises
    [ValueError("Failed to setup RAG chain: No documents in vector store.
    Add documents first.")]: the refusal of [get_retriever], wrapped. *)
Theorem init_on_store_without_documents_fails
    (vector_store : paid.VectorStore C) (s : State W)
    (model_name : string) (temperature : float_literal)
    (key : string) (llm : LLM) (w1 : W) :
  getenv "OPENAI_API_KEY" (world s) = Some key ->
  key <> "" ->
  new_chat_openai model_name temperature key (world s) = (w1, Ret llm) ->
  paid.vectorstore vector_store = None ->
  rag_chain.__init__ (QA:=QA) model_name temperature (vector_store, s)
    = ((vector_store, mkState w1 (stdout s) (calls s)),
       Raise (ValueError
                "Failed to setup RAG chain: No documents in vector store. Add documents first.")).
Proof.
  intros Hkey Hne Hllm Hvs.
  unfold rag_chain.__init__, rag_chain._setup_chain, paid.get_retriever.
  unfold_all. simpl. rewrite Hkey. simpl.
  destruct (String.eqb key "") eqn:Hempty.
  { apply String.eqb_eq in Hempty. contradiction. }
  simpl. rewrite Hllm. simpl. rewrite Hvs. reflexivity.
Qed.

(** X17. An exception out of [RAGChain.__init__] is one of three: the
    [ValueError] for a missing or empty [OPENAI_API_KEY], raised before
    anything else is done; what the [ChatOpenAI] constructor raised, as it
    is; or a [ValueError] whose text starts with
    ["Failed to setup RAG chain: "]. *)
Theorem init_errors
    (model_name : string) (temperature : float_literal)
    (σ σ' : @paid.Self W C) (x : exception) :
  rag_chain.__init__ (QA:=QA) model_name temperature σ = (σ', Raise x) ->
  (truthy (getenv "OPENAI_API_KEY" (world (snd σ))) = false
   /\ σ' = σ
   /\ x = ValueError "OPENAI_API_KEY not found in environment variables")
  \/ (exists key w',
        getenv "OPENAI_API_KEY" (world (snd σ)) = Some key
        /\ new_chat_openai model_name temperature key (world (snd σ))
           = (w', Raise x))
  \/ (exc_class x = "ValueError"
      /\ String.prefix "Failed to setup RAG chain: " (str x) = true).
Proof.
  destruct σ as [vs s].
  unfold rag_chain.__init__, rag_chain._setup_chain. unfold_all. simpl.
  destruct (getenv "OPENAI_API_KEY" (world s)) as [key|] eqn:Hkey; simpl.
  - destruct (String.eqb key ""); simpl.
    + intros [= <- <-]. left. auto.
    + destruct (new_chat_openai model_name temperature key (world s))
        as [w1 r] eqn:Hllm.
      destruct r as [llm|e]; simpl.
      * match goal with
        | |- context [paid.get_retriever None ?σ1] =>
            destruct (paid.get_retriever None σ1) as [σ2 [retriever|e]]
        end; simpl.
        -- split_call; intros [= <- <-]. right. right.
           split; [reflexivity|]. apply prefix_append.
        -- intros [= <- <-]. right. right.
           split; [reflexivity|]. apply prefix_append.
      * intros [= <- <-]. right. left. eauto.
  - intros [= <- <-]. left. auto.
Qed.

End RAGChainConstruction.

Section RAGChainAnswers.
Context {W QA : Type} `{Chains W QA}.
Import rag_chain.

(** X18. [query] reports [success = True] exactly when the chain call
    returned a response in which both ["result"] and ["source_documents"]
    can be read; the answer and the sources are then those two values. *)
Theorem query_success_iff
    (self : RAGChain QA) (question : string) (s : State W) :
  (exists s' d,
     query self question s = (s', Ret (Dict d))
     /\ d !! "success" = Some (VBool true))
  <-> (exists w' result answer sources,
         qa_call (qa_chain self) question (world s) = (w', Ret result)
         /\ getitem result "result" = Ret answer
         /\ getitem result "source_documents" = Ret sources).
Proof.
  unfold query. unfold_all. simpl.
  destruct (qa_call (qa_chain self) question (world s)) as [w' r] eqn:Hcall.
  destruct r as [result|e]; simpl.
  - destruct (getitem result "result") as [answer|e] eqn:Hres; simpl.
    + destruct (getitem result "source_documents") as [sources|e] eqn:Hsrc;
        simpl.
      * split; [intros _; eauto 10|]. intros _.
        eexists _, _. split; reflexivity.
      * split.
        -- intros (s' & d & [= _ <-] & Hsucc). discriminate.
        -- intros (w'' & result' & a & sd & [= _ <-] & _ & Habs).
           congruence.
    + split.
      * intros (s' & d & [= _ <-] & Hsucc). discriminate.
      * intros (w'' & result' & a & sd & [= _ <-] & Habs & _). congruence.
  - split.
    + intros (s' & d & [= _ <-] & Hsucc). discriminate.
    + intros (w'' & result' & a & sd & Habs & _). discriminate.
Qed.

(** X19. [chat] never raises and returns the ["answer"] entry of the
    dict [query] returns, in the state [query] leaves: the chain's
    ["result"] when the chain's response can be read, and the text
    ["Error processing query: " + str(e)] when the provider fails with
    [e]. *)
Theorem chat_returns_text
    (self : RAGChain QA) (question : string) (s : State W) :
  exists s' d v,
    query self question s = (s', Ret (Dict d))
    /\ d !! "answer" = Some v
    /\ chat self question s = (s', Ret v)
    /\ (forall w' result answer sources,
          qa_call (qa_chain self) question (world s) = (w', Ret result) ->
          getitem result "result" = Ret answer ->
          getitem result "source_documents" = Ret sources ->
          v = answer)
    /\ (forall e w',
          provider_fails (qa_chain self) question (world s) e w' ->
          v = VStr ("Error processing query: " +:+ str e)).
Proof.
  unfold chat, query, provider_fails. unfold_all. simpl.
  destruct (qa_call (qa_chain self) question (world s)) as [w1 r] eqn:Hcall.
  destruct r as [result|e1]; simpl.
  - destruct (getitem result "result") as [answer|e2] eqn:Hres; simpl.
    + destruct (getitem result "source_documents") as [sources|e3] eqn:Hsrc;
        simpl.
      * eexists _, _, _. split; [reflexivity|]. split; [reflexivity|].
        split; [reflexivity|]. split.
        -- intros w' result' a sd [= _ <-] Ha _. congruence.
        -- intros e w' [Habs | (result' & [= _ <-] & [Habs | [_ Habs]])];
             congruence.
      * eexists _, _, _. split; [reflexivity|]. split; [reflexivity|].
        split; [reflexivity|]. split.
        -- intros w' result' a sd [= _ <-] _ Hsd. congruence.
        -- intros e w' [Habs | (result' & [= _ <-] & [Habs | [_ Habs]])];
             congruence.
    + eexists _, _, _. split; [reflexivity|]. split; [reflexivity|].
      split; [reflexivity|]. split.
      * intros w' result' a sd [= _ <-] Ha _. congruence.
      * intros e w' [Habs | (result' & [= _ <-] & [Habs | [[v Hv] _]])];
          congruence.
  - eexists _, _, _. split; [reflexivity|]. split; [reflexivity|].
    split; [reflexivity|]. split.
    + intros w' result' a sd Habs. discriminate.
    + intros e w' [[= _ <-] | (result' & Habs & _)];
        [reflexivity|discriminate].
Qed.

(** X20. When the provider fails, [get_sources] returns the empty list
    and does not raise; it has called the chain once. *)
Theorem get_sources_on_failure
    (self : RAGChain QA) (question : string) (s : State W)
    (e : exception) (w' : W) :
  provider_fails (qa_chain self) question (world s) e w' ->
  get_sources self question s
    = (mkState w' (stdout s) (calls s ++ [QACall question]), Ret []).
Proof.
  intros Hfail. unfold get_sources, query. unfold_all. simpl.
  destruct Hfail as [Hcall | (result & Hcall & Hread)]; rewrite Hcall; simpl.
  - reflexivity.
  - destruct Hread as [Hres | [[v Hres] Hsrc]]; rewrite Hres; simpl.
    + reflexivity.
    + rewrite Hsrc. reflexivity.
Qed.

(** X21. When the chain answers with a list of documents,
    [get_sources] returns their texts in the chain's order. *)
Theorem get_sources_of_answer
    (self : RAGChain QA) (question : string) (s : State W)
    (w' : W) (result : object) (answer : value) (sources : list Document) :
  qa_call (qa_chain self) question (world s) = (w', Ret result) ->
  getitem result "result" = Ret answer ->
  getitem result "source_documents" = Ret (VDocs sources) ->
  get_sources self question s
    = (mkState w' (stdout s) (calls s ++ [QACall question]),
       Ret (map page_content sources)).
Proof.
  intros Hcall Hres Hsrc. unfold get_sources, query. unfold_all. simpl.
  rewrite Hcall. simpl. rewrite Hres. simpl. rewrite Hsrc. reflexivity.
Qed.

(** X22. When the chain's response carries [None] under
    ["source_documents"], [query] still reports success, and
    [get_sources] raises [TypeError]: it has no guard of its own. *)
Theorem get_sources_without_source_list_raises
    (self : RAGChain QA) (question : string) (s : State W)
    (w' : W) (result : object) (answer : value) :
  qa_call (qa_chain self) question (world s) = (w', Ret result) ->
  getitem result "result" = Ret answer ->
  getitem result "source_documents" = Ret VNone ->
  (exists d,
     snd (query self question s) = Ret (Dict d)
     /\ d !! "success" = Some (VBool true))
  /\ snd (get_sources self question s)
     = Raise (TypeError "'NoneType' object is not iterable").
Proof.
  intros Hcall Hres Hsrc. unfold get_sources, query. unfold_all. simpl.
  rewrite Hcall. simpl. rewrite Hres. simpl. rewrite Hsrc. simpl.
  split; [|reflexivity]. eexists. split; reflexivity.
Qed.

End RAGChainAnswers.

(* ===================================================================== *)
(** * Further properties: app_local.py                                    *)
(* ===================================================================== *)

Lemma append_empty_right (a : string) : a +:+ "" = a.
Proof.
  induction a as [|c a IH]; [reflexivity|].
  change (String c (a +:+ "") = String c a). now rewrite IH.
Qed.

Lemma py_len_append (a b : string) :
  py_len (a +:+ b) = (py_len a + py_len b)%nat.
Proof.
  induction a as [|c a IH]; [reflexivity|].
  change (py_len (String c (a +:+ b))
          = (py_len (String c a) + py_len b)%nat).
  simpl. rewrite IH. lia.
Qed.

Lemma py_len_take (n : nat) (s : string) :
  py_len (py_take n s) = Nat.min n (py_len s).
Proof.
  revert n. induction s as [|c s IH]; intros n; simpl.
  - now destruct n.
  - destruct (is_continuation c) eqn:Hc; simpl.
    + rewrite Hc. apply IH.
    + destruct n as [|n]; simpl; [reflexivity|]. now rewrite Hc, IH.
Qed.

Lemma py_take_all (n : nat) (s : string) :
  (py_len s <= n)%nat -> py_take n s = s.
Proof.
  revert n. induction s as [|c s IH]; intros n Hn; simpl in *;
    [reflexivity|].
  destruct (is_continuation c); simpl in *.
  - f_equal. now apply IH.
  - destruct n as [|n]; [lia|]. f_equal. apply IH. lia.
Qed.

Lemma py_take_prefix (n : nat) (s : string) :
  String.prefix (py_take n s) s = true.
Proof.
  revert n. induction s as [|c s IH]; intros n; simpl; [reflexivity|].
  destruct (is_continuation c); simpl.
  - destruct (Ascii.ascii_dec c c); [apply IH|contradiction].
  - destruct n as [|n]; simpl; [reflexivity|].
    destruct (Ascii.ascii_dec c c); [apply IH|contradiction].
Qed.

(** Code points are counted, not bytes. *)
Example py_len_counts_code_points :
  py_len "héllo ⚠️" = 8%nat /\ py_take 2 "héllo" = "hé".
Proof. split; reflexivity. Qed.

(** X23. The preview of a chunk in the answer is its heading followed by
    at most 503 characters (code points): the content itself when it has
    at most 500 characters, and otherwise its first 500 characters, a
    prefix of the content, followed by ["..."]. *)
Theorem context_part_shows_at_most_500 (i : Z) (doc : Document) :
  exists shown,
    app_local.context_part i doc
      = "**Source " +:+ pretty i +:+ ":**" +:+ nl +:+ shown
    /\ (py_len shown <= 503)%nat
    /\ ((py_len (page_content doc) <= 500)%nat ->
        shown = page_content doc)
    /\ ((500 < py_len (page_content doc))%nat ->
        shown = py_take 500 (page_content doc) +:+ "..."
        /\ py_len (py_take 500 (page_content doc)) = 500%nat
        /\ String.prefix (py_take 500 (page_content doc)) (page_content doc)
           = true
        /\ py_len shown = 503%nat).
Proof.
  unfold app_local.context_part.
  eexists. split; [reflexivity|].
  pose proof (py_len_take 500 (page_content doc)) as Hlen.
  destruct (500 <? py_len (page_content doc))%nat eqn:Hlong.
  - apply Nat.ltb_lt in Hlong. rewrite py_len_append, Hlen.
    change (py_len "...") with 3%nat.
    split; [lia|]. split; [lia|]. intros _.
    split; [reflexivity|]. split; [lia|].
    split; [apply py_take_prefix|lia].
  - apply Nat.ltb_ge in Hlong. rewrite append_empty_right, Hlen.
    split; [lia|]. split; [|lia].
    intros _. now apply py_take_all.
Qed.

Section AppLocalMore.
Context {W C : Type} `{OS W} `{ChromaLib W C}.
Import app_local.

(** X24. With the free store [simple_rag_response] always returns a
    text, never raises and never returns its own
    ["Error searching documents: ..."] text; the store object is left as it
    was. *)
Theorem simple_rag_response_never_fails
    (σ : @free.Self W C) (question : string) (k : Z) :
  exists σ' text,
    simple_rag_response question k σ = (σ', Ret text)
    /\ String.prefix "Error searching documents: " text = false
    /\ fst σ' = fst σ.
Proof.
  destruct σ as [self s].
  unfold simple_rag_response, free.similarity_search. unfold_all. simpl.
  destruct (free.vectorstore self) as [c|]; simpl.
  - split_call.
    + destruct a as [|d ds]; eexists _, _; repeat split.
    + eexists _, _; repeat split.
  - eexists _, _; repeat split.
Qed.

End AppLocalMore.

(* ===================================================================== *)
(** * Further properties: cli_chat.py and app.py                          *)
(* ===================================================================== *)

Section CliFacts.
Context {W C R LLM QA : Type}
        `{OS W} `{Langchain W} `{ChromaLib W C} `{Retrievers W C R}
        `{ChainBuilder W R LLM QA}.

(** X25. When [check_api_key] of the command line returns [True], the
    key is set, is not empty and is not the placeholder of the template,
    and [RAGChain.__init__] in that world passes its own key check: it goes
    on to build the chat model with that key. *)
Theorem checked_key_reaches_chat_model
    (s : State W) (vector_store : paid.VectorStore C)
    (model_name : string) (temperature : float_literal) :
  snd (cli_chat.check_api_key s) = Ret true ->
  exists key,
    getenv "OPENAI_API_KEY" (world s) = Some key
    /\ key <> ""
    /\ key <> cli_chat.placeholder_key
    /\ rag_chain.__init__ (QA:=QA) model_name temperature (vector_store, s)
       = (let* llm :=
            lift (invoke (new_chat_openai model_name temperature key)) in
          rag_chain._setup_chain llm) (vector_store, s).
Proof.
  unfold cli_chat.check_api_key, rag_chain.__init__. unfold_all. simpl.
  destruct (getenv "OPENAI_API_KEY" (world s)) as [key|]; simpl;
    [|discriminate].
  destruct (String.eqb key "") eqn:Hempty; simpl; [discriminate|].
  destruct (bool_decide (Some key = Some cli_chat.placeholder_key)) eqn:Hph;
    simpl; [discriminate|].
  intros _. exists key. split; [reflexivity|]. split; [|split].
  - intros ->. discriminate.
  - intros ->. apply bool_decide_eq_false in Hph. now apply Hph.
  - reflexivity.
Qed.

(** X26. [setup_rag_system] never raises: it returns a chain or
    [None]. *)
Theorem setup_rag_system_never_raises (document_path : string) (s : State W) :
  exists s' chain,
    cli_chat.setup_rag_system (C:=C) (R:=R) (LLM:=LLM) (QA:=QA)
      document_path s = (s', Ret chain).
Proof.
  unfold cli_chat.setup_rag_system.
  unfold bind at 1. unfold print, modify. unfold try_except.
  match goal with
  | |- context [match ?m ?s0 with pair _ _ => _ end] =>
      destruct (m s0) as [s1 [chain|e]]
  end.
  - eauto.
  - unfold bind, ret. simpl. eauto.
Qed.

(** X27. For a path that is neither a file nor a directory
    [setup_rag_system] returns [None] after printing
    ["❌ Error setting up RAG system: Invalid path: <path>"]; the text
    splitter has been built, and no loader, embedding model or index has
    been touched. *)
Theorem setup_rag_system_invalid_path
    (document_path : string) (s : State W) (w1 : W) :
  new_text_splitter 1000 200 (world s) = (w1, Ret tt) ->
  path_isfile document_path w1 = false ->
  path_isdir document_path w1 = false ->
  cli_chat.setup_rag_system (C:=C) (R:=R) (LLM:=LLM) (QA:=QA) document_path s
    = (mkState w1
         (stdout s
          ++ ["🔧 Setting up RAG system...";
              "❌ Error setting up RAG system: Invalid path: " +:+ document_path])
         (calls s ++ [NewTextSplitter 1000 200]),
       Ret None).
Proof.
  intros Hsplit Hfile Hdir.
  unfold cli_chat.setup_rag_system, document_processor.__init__,
    document_processor.process_documents,
    document_processor.default_chunk_size,
    document_processor.default_chunk_overlap.
  unfold_all. simpl. rewrite Hsplit. simpl. rewrite Hfile. simpl.
  rewrite Hdir. simpl. now rewrite <- app_assoc.
Qed.

(** X28. When processing the path yields no chunk, [setup_rag_system]
    still builds the vector store, then fails in [add_documents] and
    returns [None] after printing
    ["❌ Error setting up RAG system: No documents provided"]. *)
Theorem setup_rag_system_without_chunks
    (document_path : string) (s s1 s2 : State W)
    (vector_store : paid.VectorStore C) :
  (let* processor := document_processor.__init__ 1000 200 in
   document_processor.process_documents processor document_path)
    (mkState (world s) (stdout s ++ ["🔧 Setting up RAG system..."]) (calls s))
    = (s1, Ret []) ->
  paid.__init__ "rag_documents" "./chroma_db" "openai"
    (mkState (world s1) (stdout s1 ++ ["📄 Processed 0 document chunks"])
             (calls s1))
    = (s2, Ret vector_store) ->
  cli_chat.setup_rag_system (C:=C) (R:=R) (LLM:=LLM) (QA:=QA) document_path s
    = (mkState (world s2)
         (stdout s2 ++ ["❌ Error setting up RAG system: No documents provided"])
         (calls s2),
       Ret None).
Proof.
  intros Hprocess Hstore.
  unfold cli_chat.setup_rag_system.
  unfold document_processor.default_chunk_size,
    document_processor.default_chunk_overlap.
  unfold bind at 1. unfold print at 1. unfold modify at 1.
  unfold try_except. unfold bind at 1.
  unfold bind at 1 in Hprocess.
  destruct (document_processor.__init__ 1000 200 _) as [s0 [processor|e]];
    [|discriminate].
  unfold bind at 1. rewrite Hprocess.
  unfold bind at 1. unfold print at 1. unfold modify at 1.
  change (pretty (length (@nil Document))) with "0".
  unfold bind at 1.
  change ("📄 Processed " +:+ "0" +:+ " document chunks")
    with "📄 Processed 0 document chunks".
  rewrite Hstore. reflexivity.
Qed.

End CliFacts.

Section AppFacts.
Context {W C QA : Type} `{OS W} `{ChromaLib W C}.

(** X29. [reset_system] of [app.py] never raises and always leaves the
    session cleared (no messages, no chain, nothing marked as processed),
    whatever building the vector store or deleting the collection does. *)
Theorem reset_system_clears_session
    (session : app.SessionState QA) (s : State W) :
  exists s',
    app.reset_system (C:=C) (session, s)
      = ((app.mkSessionState [] None false, s'), Ret tt).
Proof.
  unfold app.reset_system. unfold_all. simpl.
  match goal with
  | |- context [paid.__init__ ?a ?b ?c ?s0] =>
      destruct (paid.__init__ (C:=C) a b c s0) as [s1 [vs|e]]
  end; simpl; [|eauto].
  match goal with
  | |- context [paid.delete_collection ?σ] =>
      destruct (paid.delete_collection σ) as [[vs' s2] [[]|e]]
  end; simpl; eauto.
Qed.

End AppFacts.

(* ===================================================================== *)
(** * The further statements on the concrete world                        *)
(* ===================================================================== *)

(** X16, with a key and an empty store. *)
Lemma init_on_store_without_documents_fails_witness :
  snd (rag_chain.__init__ (R:=Z) (LLM:=string) (QA:=unit)
         rag_chain.default_model_name rag_chain.default_temperature
         Host.paid_fresh)
    = Raise (ValueError
               "Failed to setup RAG chain: No documents in vector store. Add documents first.").
Proof.
  assert (Hkey : getenv "OPENAI_API_KEY" (world (Host.start Host.configured))
                 = Some "sk-test") by reflexivity.
  assert (Hne : "sk-test" <> "") by discriminate.
  assert (Hllm : new_chat_openai (R:=Z) (QA:=unit) rag_chain.default_model_name
                   rag_chain.default_temperature "sk-test"
                   (world (Host.start Host.configured))
                 = (Host.configured, Ret "gpt-3.5-turbo")) by reflexivity.
  unfold Host.paid_fresh.
  rewrite (init_on_store_without_documents_fails (R:=Z) (LLM:=string) (QA:=unit)
             Cases.paid_unopened (Host.start Host.configured)
             rag_chain.default_model_name rag_chain.default_temperature
             "sk-test" "gpt-3.5-turbo" Host.configured Hkey Hne Hllm eq_refl).
  reflexivity.
Defined.

(** X17, without a key. *)
Lemma init_errors_witness :
  (truthy (getenv "OPENAI_API_KEY" Host.unconfigured) = false
   /\ (Cases.paid_opened, Host.start Host.unconfigured)
      = (Cases.paid_opened, Host.start Host.unconfigured)
   /\ ValueError "OPENAI_API_KEY not found in environment variables"
      = ValueError "OPENAI_API_KEY not found in environment variables")
  \/ (exists key w',
        getenv "OPENAI_API_KEY" Host.unconfigured = Some key
        /\ new_chat_openai (R:=Z) (LLM:=string) (QA:=unit)
             rag_chain.default_model_name rag_chain.default_temperature key
             Host.unconfigured
           = (w', Raise (ValueError
                           "OPENAI_API_KEY not found in environment variables")))
  \/ (exc_class (ValueError "OPENAI_API_KEY not found in environment variables")
        = "ValueError"
      /\ String.prefix "Failed to setup RAG chain: "
           (str (ValueError "OPENAI_API_KEY not found in environment variables"))
         = true).
Proof.
  assert (Hinit : rag_chain.__init__ (R:=Z) (LLM:=string) (QA:=unit)
                    rag_chain.default_model_name rag_chain.default_temperature
                    (Cases.paid_opened, Host.start Host.unconfigured)
                  = ((Cases.paid_opened, Host.start Host.unconfigured),
                     Raise (ValueError
                              "OPENAI_API_KEY not found in environment variables")))
    by reflexivity.
  exact (init_errors (R:=Z) (LLM:=string) (QA:=unit) _ _ _ _ _ Hinit).
Defined.

(** X20, with the generation provider down. *)
Lemma get_sources_on_failure_witness :
  rag_chain.get_sources Cases.chain "What is the capital of France?"
      (Lab.start Cases.no_llm)
    = (mkState Cases.no_llm [] [QACall "What is the capital of France?"],
       Ret []).
Proof.
  apply (get_sources_on_failure Cases.chain "What is the capital of France?"
           (Lab.start Cases.no_llm)
           (mkException "RateLimitError" "You exceeded your current quota")
           Cases.no_llm).
  left. reflexivity.
Defined.

(** X21, with one chunk indexed. *)
Lemma get_sources_of_answer_witness :
  rag_chain.get_sources Cases.chain "What is the capital of France?"
      (Lab.start Cases.undeletable_index)
    = (mkState Cases.undeletable_index []
         [QACall "What is the capital of France?"],
       Ret ["Paris is the capital of France."]).
Proof.
  apply (get_sources_of_answer Cases.chain "What is the capital of France?"
           (Lab.start Cases.undeletable_index) Cases.undeletable_index
           (Dict {[ "query" := VStr "What is the capital of France?";
                    "result" := VStr "I don't know.";
                    "source_documents" := VDocs [Lab.note] ]})
           (VStr "I don't know.") [Lab.note]); reflexivity.
Defined.

(** X22, with a chain that answers without a list of sources. *)
Lemma get_sources_without_source_list_raises_witness :
  snd (@rag_chain.get_sources _ _ Host.sourceless_chains Cases.chain
         "What is the capital of France?" (Host.start Host.configured))
    = Raise (TypeError "'NoneType' object is not iterable").
Proof.
  apply (@get_sources_without_source_list_raises _ _ Host.sourceless_chains
           Cases.chain "What is the capital of France?"
           (Host.start Host.configured) Host.configured
           (Dict {[ "result" := VStr "I don't know.";
                    "source_documents" := VNone ]})
           (VStr "I don't know.")); reflexivity.
Defined.

(** X25, with a key set. *)
Lemma checked_key_reaches_chat_model_witness :
  exists key,
    getenv "OPENAI_API_KEY" Host.configured = Some key
    /\ key <> ""
    /\ key <> cli_chat.placeholder_key
    /\ rag_chain.__init__ (R:=Z) (LLM:=string) (QA:=unit)
         rag_chain.default_model_name rag_chain.default_temperature
         (Cases.paid_opened, Host.start Host.configured)
       = (let* llm :=
            lift (invoke (new_chat_openai rag_chain.default_model_name
                            rag_chain.default_temperature key)) in
          rag_chain._setup_chain llm)
           (Cases.paid_opened, Host.start Host.configured).
Proof.
  assert (Hcheck : snd (cli_chat.check_api_key (Host.start Host.configured))
                   = Ret true) by reflexivity.
  exact (checked_key_reaches_chat_model (R:=Z) (LLM:=string) (QA:=unit)
           (Host.start Host.configured) Cases.paid_opened
           rag_chain.default_model_name rag_chain.default_temperature Hcheck).
Defined.

(** X27, for a path that does not exist. *)
Lemma setup_rag_system_invalid_path_witness :
  cli_chat.setup_rag_system (C:=unit) (R:=Z) (LLM:=string) (QA:=unit)
      "nowhere" (Host.start Host.configured)
    = (mkState Host.configured
         ["🔧 Setting up RAG system...";
          "❌ Error setting up RAG system: Invalid path: nowhere"]
         [NewTextSplitter 1000 200],
       Ret None).
Proof.
  assert (Hsplit : new_text_splitter 1000 200
                     (world (Host.start Host.configured))
                   = (Host.configured, Ret tt)) by reflexivity.
  assert (Hfile : path_isfile "nowhere" Host.configured = false)
    by reflexivity.
  assert (Hdir : path_isdir "nowhere" Host.configured = false)
    by reflexivity.
  exact (setup_rag_system_invalid_path (C:=unit) (R:=Z) (LLM:=string) (QA:=unit)
           "nowhere" (Host.start Host.configured) Host.configured
           Hsplit Hfile Hdir).
Defined.

(** X28, for the empty directory [documents]. *)
Lemma setup_rag_system_without_chunks_witness :
  cli_chat.setup_rag_system (C:=unit) (R:=Z) (LLM:=string) (QA:=unit)
      "documents" (Host.start Host.configured)
    = (mkState Host.configured
         ["🔧 Setting up RAG system...";
          "📄 Processed 0 document chunks";
          "❌ Error setting up RAG system: No documents provided"]
         [NewTextSplitter 1000 200;
          Load (DirectoryLoaderPDF "documents" "**/*.pdf");
          Load (DirectoryLoaderText "documents" "**/*.txt" "utf-8");
          SplitDocuments [];
          NewEmbeddings OpenAIEmbeddings;
          ChromaOpen "rag_documents" "./chroma_db"],
       Ret None).
Proof.
  apply (setup_rag_system_without_chunks (C:=unit) (R:=Z) (LLM:=string)
           (QA:=unit) "documents" (Host.start Host.configured)
           (mkState Host.configured ["🔧 Setting up RAG system..."]
              [NewTextSplitter 1000 200;
               Load (DirectoryLoaderPDF "documents" "**/*.pdf");
               Load (DirectoryLoaderText "documents" "**/*.txt" "utf-8");
               SplitDocuments []])
           (mkState Host.configured
              ["🔧 Setting up RAG system..."; "📄 Processed 0 document chunks"]
              [NewTextSplitter 1000 200;
               Load (DirectoryLoaderPDF "documents" "**/*.pdf");
               Load (DirectoryLoaderText "documents" "**/*.txt" "utf-8");
               SplitDocuments [];
               NewEmbeddings OpenAIEmbeddings;
               ChromaOpen "rag_documents" "./chroma_db"])
           (paid.mkVectorStore "rag_documents" "./chroma_db" OpenAIEmbeddings
              (Some tt)));
    reflexivity.
Defined.

(* ===================================================================== *)
(** * Further properties: the upload path of app_local.py                 *)
(* ===================================================================== *)

Section UploadFacts.
Context {W C : Type} `{OS W} `{Langchain W} `{ChromaLib W C} `{Uploads W}.

(** An [add_documents] that returned has handed exactly its documents to
    the index library. *)
Lemma free_add_documents_hands_over (d : Document) (ds : list Document)
    (σ σ1 : @free.Self W C) :
  free.add_documents (d :: ds) σ = (σ1, Ret tt) ->
  ChromaFromDocuments (d :: ds) ∈ calls (snd σ1)
  \/ ChromaAddDocuments (d :: ds) ∈ calls (snd σ1).
Proof.
  destruct σ as [self s]. unfold free.add_documents. unfold_py. simpl.
  destruct (free.vectorstore self) as [c|] eqn:Hvs; simpl.
  - split_call; [|discriminate]. rewrite Hvs. simpl.
    split_call; intros [= <-]; simpl. right.
    apply elem_of_app. left. apply elem_of_app. right. left.
  - split_call; [|discriminate].
    split_call; intros [= <-]; simpl. left.
    apply elem_of_app. left. apply elem_of_app. right. left.
Qed.

(** X30. [process_documents] of [app_local.py] never raises and is all
    or nothing. It returns 0 with the session state untouched (whatever
    failed: a file that could not be saved, loaded or split, an upload
    without text, the index), or it returns the number of chunks it handed
    to the index library in one call, which is positive, and then the
    session holds a store with a Chroma object and is marked as processed,
    its messages unchanged. *)
Theorem process_documents_all_or_nothing
    (uploaded_files : list UploadedFile)
    (session : app_local.SessionState C) (s : State W) :
  exists session' s' n,
    app_local.process_documents uploaded_files (session, s)
      = ((session', s'), Ret n)
    /\ (0 <= n)%Z
    /\ (n = 0%Z -> session' = session)
    /\ (n <> 0%Z ->
        app_local.documents_processed session' = true
        /\ app_local.messages session' = app_local.messages session
        /\ (exists store c,
              app_local.vector_store session' = Some store
              /\ free.vectorstore store = Some c)
        /\ exists all_chunks,
             n = Z.of_nat (length all_chunks)
             /\ (ChromaFromDocuments all_chunks ∈ calls s'
                 \/ ChromaAddDocuments all_chunks ∈ calls s')).
Proof.
  unfold app_local.process_documents. unfold_all. simpl.
  destruct (document_processor.__init__ _ _ s) as [s1 [processor|e]]; simpl;
    [|eexists _, _, _; repeat split; (lia || contradiction || reflexivity)].
  destruct (free.__init__ (C:=C) "rag_documents" "./chroma_db" s1)
    as [s2 [store|e]]; simpl;
    [|eexists _, _, _; repeat split; (lia || contradiction || reflexivity)].
  destruct (with_temporary_directory _ s2) as [s3 [all_chunks|e]]; simpl;
    [|eexists _, _, _; repeat split; (lia || contradiction || reflexivity)].
  destruct all_chunks as [|chunk chunks];
    [simpl; eexists _, _, _; repeat split;
     (lia || contradiction || reflexivity)|].
  cbn -[free.add_documents].
  destruct (free.add_documents (chunk :: chunks) (store, s3))
    as [[store' s4] [[]|e]] eqn:Hadd; cbn -[free.add_documents];
    [|eexists _, _, _; repeat split; (lia || contradiction || reflexivity)].
  pose proof (free_add_documents_opens _ _ _ Hadd) as [c Hc].
  pose proof (free_add_documents_hands_over _ _ _ _ Hadd) as Hcalls.
  simpl in Hc, Hcalls.
  eexists _, _, _. split; [reflexivity|].
  split; [lia|]. split; [lia|]. intros _.
  split; [reflexivity|]. split; [reflexivity|]. split; [eauto|].
  exists (chunk :: chunks). split; [reflexivity|exact Hcalls].
Qed.

End UploadFacts.

(** C3, on the empty sequence and on a chunk the index library cannot
    take. *)
Lemma add_documents_empty_input_iff_witness :
  paid.add_documents [] Host.paid_fresh
    = (Host.paid_fresh, Raise (ValueError "No documents provided"))
  /\ @index_library_raises _ _ Host.brittle_chroma
       (paid.vectorstore Cases.paid_unopened)
       (paid.embeddings Cases.paid_unopened)
       (paid.collection_name Cases.paid_unopened)
       (paid.persist_directory Cases.paid_unopened)
       [Lab.note] Host.without_model
       (mkException "RuntimeError" "no embedding model").
Proof.
  split.
  - apply (proj1 (proj1 (add_documents_empty_input_iff
                           [] Host.paid_fresh Host.free_fresh))).
    reflexivity.
  - apply (proj2 (proj1 (@add_documents_empty_input_iff _ _ Host.brittle_chroma
                           [Lab.note]
                           (Cases.paid_unopened, Host.start Host.without_model)
                           (Cases.free_unopened, Host.start Host.without_model)))).
    + discriminate.
    + reflexivity.
Defined.
